(** * devict/job-board: signed edit links, token middleware, retention sweep

    A shallow embedding of the Go sources [pkg/data/data.go],
    [pkg/server/server.go], [pkg/server/routes.go], the signed-route helpers
    and the background sweeper of [cmd/server/main.go].

    Go strings are byte strings and are modelled by [string]; a [[]byte] is a
    [list Z] of values in [0, 256); Go's fixed-width integers are [Z] with the
    wrap-around written out.  The standard-library functions the code calls
    ([crypto/sha256], [crypto/hmac], [encoding/base64], [net/url],
    [crypto/subtle]) are modelled from their published algorithms; the
    functions whose behaviour no property below depends on
    ([time.Time.String], [url.ParseRequestURI], [mail.ParseAddress]) are
    section variables. *)

From Stdlib Require Import ZArith List Ascii String Lia Bool.
From stdpp Require Import base option list strings gmap fin_maps.

Local Open Scope Z_scope.

(** ** Byte strings *)

Module GoBytes.

Definition byte_of_ascii (c : ascii) : Z := Z.of_N (N_of_ascii c).
Definition ascii_of_byte (b : Z) : ascii := ascii_of_N (Z.to_N b).

(** [[]byte(s)] *)
Fixpoint of_string (s : string) : list Z :=
  match s with
  | EmptyString => []
  | String c s' => byte_of_ascii c :: of_string s'
  end.

(** [string(b)] *)
Fixpoint to_string (b : list Z) : string :=
  match b with
  | [] => EmptyString
  | x :: b' => String (ascii_of_byte x) (to_string b')
  end.

End GoBytes.

(** ** crypto/sha256 and crypto/hmac *)

Module SHA256.

Definition mask32 : Z := 0xFFFFFFFF.
Definition w32 (x : Z) : Z := Z.land x mask32.
Definition add32 (x y : Z) : Z := w32 (x + y).
Definition rotr (n x : Z) : Z :=
  Z.lor (Z.shiftr x n) (w32 (Z.shiftl x (32 - n))).
Definition not32 (x : Z) : Z := Z.lxor x mask32.

Definition Ch (x y z : Z) : Z := Z.lxor (Z.land x y) (Z.land (not32 x) z).
Definition Maj (x y z : Z) : Z :=
  Z.lxor (Z.lxor (Z.land x y) (Z.land x z)) (Z.land y z).
Definition Sigma0 (x : Z) : Z := Z.lxor (Z.lxor (rotr 2 x) (rotr 13 x)) (rotr 22 x).
Definition Sigma1 (x : Z) : Z := Z.lxor (Z.lxor (rotr 6 x) (rotr 11 x)) (rotr 25 x).
Definition sigma0 (x : Z) : Z := Z.lxor (Z.lxor (rotr 7 x) (rotr 18 x)) (Z.shiftr x 3).
Definition sigma1 (x : Z) : Z := Z.lxor (Z.lxor (rotr 17 x) (rotr 19 x)) (Z.shiftr x 10).

(** The first primes, by trial division. *)
Definition is_prime (n : Z) : bool :=
  forallb (fun d => negb (n mod Z.of_nat d =? 0)) (seq 2 (Z.to_nat n - 2)).

Definition primes (count : nat) : list Z :=
  firstn count (List.filter is_prime (map Z.of_nat (seq 2 400))).

(** The integer cube root of [n], bit by bit from bit [bits] down. *)
Fixpoint icbrt (bits : nat) (n r : Z) : Z :=
  match bits with
  | O => r
  | S b =>
      let r' := r + 2 ^ Z.of_nat b in
      icbrt b n (if r' * r' * r' <=? n then r' else r)
  end.

(** The round constants: the first 32 bits of the fractional parts of the
    cube roots of the first 64 primes (FIPS 180-4, section 4.2.2). *)
Definition K : list Z :=
  Eval vm_compute in map (fun p => w32 (icbrt 48 (p * 2 ^ 96) 0)) (primes 64).

(** The initial hash value: the same of the square roots of the first 8
    primes (FIPS 180-4, section 5.3.3). *)
Definition H0 : list Z :=
  Eval vm_compute in map (fun p => w32 (Z.sqrt (p * 2 ^ 64))) (primes 8).

(** Big-endian encoding of [x] on [n] bytes. *)
Fixpoint be_bytes (n : nat) (x : Z) : list Z :=
  match n with
  | O => []
  | S n' => Z.land (Z.shiftr x (8 * Z.of_nat n')) 0xFF :: be_bytes n' x
  end.

(** The message followed by 0x80, zeros up to 56 mod 64, and the bit
    length on eight bytes. *)
Definition pad (msg : list Z) : list Z :=
  let len := Z.of_nat (length msg) in
  let zeros := Z.to_nat ((55 - len) mod 64) in
  msg ++ 0x80 :: repeat 0 zeros ++ be_bytes 8 (8 * len).

Fixpoint words (fuel : nat) (bs : list Z) : list Z :=
  match fuel, bs with
  | S f, a :: b :: c :: d :: rest =>
      Z.lor (Z.shiftl a 24) (Z.lor (Z.shiftl b 16) (Z.lor (Z.shiftl c 8) d))
      :: words f rest
  | _, _ => []
  end.

(** The message schedule, most recent word first. *)
Fixpoint schedule (n : nat) (rev_w : list Z) : list Z :=
  match n with
  | O => rev_w
  | S n' =>
      let w := add32 (add32 (sigma1 (nth 1 rev_w 0)) (nth 6 rev_w 0))
                     (add32 (sigma0 (nth 14 rev_w 0)) (nth 15 rev_w 0)) in
      schedule n' (w :: rev_w)
  end.

Definition round (st : list Z) (kw : Z * Z) : list Z :=
  match st with
  | [a; b; c; d; e; f; g; h] =>
      let t1 := add32 (add32 (add32 h (Sigma1 e)) (add32 (Ch e f g) (fst kw))) (snd kw) in
      let t2 := add32 (Sigma0 a) (Maj a b c) in
      [add32 t1 t2; a; b; c; add32 d t1; e; f; g]
  | _ => st
  end.

Definition compress (st : list Z) (block : list Z) : list Z :=
  let w := rev (schedule 48 (rev block)) in
  let st' := fold_left round (combine K w) st in
  map (fun p => add32 (fst p) (snd p)) (combine st st').

Fixpoint blocks (fuel : nat) (ws : list Z) (st : list Z) : list Z :=
  match fuel with
  | O => st
  | S f =>
      match ws with
      | [] => st
      | _ => blocks f (skipn 16 ws) (compress st (firstn 16 ws))
      end
  end.

(** [sha256.Sum256] *)
Definition Sum256 (msg : list Z) : list Z :=
  let p := pad msg in
  let ws := words (length p) p in
  flat_map (be_bytes 4) (blocks (length ws) ws H0).

End SHA256.

Module HMAC.

Definition BlockSize : nat := 64.

Definition xor_pad (c : Z) (key : list Z) : list Z := map (Z.lxor c) key.

(** [hmac.New(sha256.New, key)], [Write(msg)], [Sum(nil)]. *)
Definition SumSHA256 (key msg : list Z) : list Z :=
  let key' := if Nat.ltb BlockSize (length key) then SHA256.Sum256 key else key in
  let k := key' ++ repeat 0 (BlockSize - length key') in
  SHA256.Sum256 (xor_pad 0x5c k ++ SHA256.Sum256 (xor_pad 0x36 k ++ msg)).

End HMAC.

(** ** encoding/base64: [base64.URLEncoding] (RFC 4648 section 5, padded) *)

Module Base64.

Definition encodeURL : string :=
  "ABCDEFGHIJKLMNOPQRSTUVWXYZabcdefghijklmnopqrstuvwxyz0123456789-_".

Definition enc (v : Z) : ascii :=
  match String.get (Z.to_nat v) encodeURL with
  | Some c => c
  | None => "="%char
  end.

Definition sextet (val shift : Z) : ascii := enc (Z.land (Z.shiftr val shift) 0x3F).

(** [URLEncoding.EncodeToString] *)
Fixpoint EncodeToString (src : list Z) : string :=
  match src with
  | [] => EmptyString
  | [a] =>
      let val := Z.shiftl a 16 in
      String (sextet val 18) (String (sextet val 12) "==")
  | [a; b] =>
      let val := Z.lor (Z.shiftl a 16) (Z.shiftl b 8) in
      String (sextet val 18) (String (sextet val 12) (String (sextet val 6) "="))
  | a :: b :: c :: rest =>
      let val := Z.lor (Z.shiftl a 16) (Z.lor (Z.shiftl b 8) c) in
      String (sextet val 18) (String (sextet val 12)
        (String (sextet val 6) (String (sextet val 0) (EncodeToString rest))))
  end.

End Base64.

(** ** net/url: query escaping and [url.ParseQuery] *)

Module NetURL.

Definition between (lo hi c : ascii) : bool :=
  (N_of_ascii lo <=? N_of_ascii c)%N && (N_of_ascii c <=? N_of_ascii hi)%N.

Definition is_char (c d : ascii) : bool := Ascii.eqb c d.

(** [shouldEscape(c, encodeQueryComponent)]: only the unreserved
    characters of RFC 3986 section 2.3 are left alone. *)
Definition shouldEscape (c : ascii) : bool :=
  if between "a" "z" c || between "A" "Z" c || between "0" "9" c then false
  else if is_char c "-" || is_char c "_" || is_char c "." || is_char c "~" then false
  else true.

Definition upperhex : string := "0123456789ABCDEF".

Definition hexdigit (n : N) : ascii :=
  match String.get (N.to_nat n) upperhex with
  | Some c => c
  | None => "0"%char
  end.

(** [url.QueryEscape] *)
Fixpoint QueryEscape (s : string) : string :=
  match s with
  | EmptyString => EmptyString
  | String c s' =>
      if shouldEscape c then
        if is_char c " " then String "+" (QueryEscape s')
        else String "%" (String (hexdigit (N_of_ascii c / 16))
               (String (hexdigit (N_of_ascii c mod 16)) (QueryEscape s')))
      else String c (QueryEscape s')
  end.

Definition ishex (c : ascii) : bool :=
  between "0" "9" c || between "a" "f" c || between "A" "F" c.

Definition unhex (c : ascii) : N :=
  if between "0" "9" c then N_of_ascii c - N_of_ascii "0"
  else if between "a" "f" c then N_of_ascii c - N_of_ascii "a" + 10
  else if between "A" "F" c then N_of_ascii c - N_of_ascii "A" + 10
  else 0.

(** [url.QueryUnescape]; [None] is Go's [EscapeError]. *)
Fixpoint QueryUnescape (s : string) : option string :=
  match s with
  | EmptyString => Some EmptyString
  | String c s1 =>
      if is_char c "%" then
        match s1 with
        | String h (String l s2) =>
            if ishex h && ishex l then
              String (ascii_of_N (N.lor (N.shiftl (unhex h) 4) (unhex l)))
                <$> QueryUnescape s2
            else None
        | _ => None
        end
      else if is_char c "+" then String " " <$> QueryUnescape s1
      else String c <$> QueryUnescape s1
  end.

(** [strings.Split(s, sep)] for a one-byte separator. *)
Fixpoint split (sep : ascii) (s : string) : list string :=
  match s with
  | EmptyString => [EmptyString]
  | String c s' =>
      if is_char c sep then EmptyString :: split sep s'
      else match split sep s' with
           | p :: ps => String c p :: ps
           | [] => [String c EmptyString]
           end
  end.

(** [strings.Cut(s, sep)]: the text before and after the first [sep]. *)
Fixpoint cut (sep : ascii) (s : string) : string * string :=
  match s with
  | EmptyString => (EmptyString, EmptyString)
  | String c s' =>
      if is_char c sep then (EmptyString, s')
      else let '(k, v) := cut sep s' in (String c k, v)
  end.

Fixpoint contains (c : ascii) (s : string) : bool :=
  match s with
  | EmptyString => false
  | String d s' => is_char d c || contains c s'
  end.

(** One iteration of the loop of [url.parseQuery]: settings with a
    semicolon, an empty setting, or a malformed escape are skipped. *)
Definition parsePair (m : gmap string (list string)) (setting : string)
  : gmap string (list string) :=
  if contains ";" setting then m
  else if String.eqb setting "" then m
  else
    let '(k, v) := cut "=" setting in
    match QueryUnescape k, QueryUnescape v with
    | Some key, Some value => <[key := default [] (m !! key) ++ [value]]> m
    | _, _ => m
    end.

(** [url.ParseQuery], the error dropped as [URL.Query()] does. *)
Definition ParseQuery (query : string) : gmap string (list string) :=
  fold_left parsePair (split "&" query) ∅.

(** [Values.Get] *)
Definition Get (m : gmap string (list string)) (key : string) : string :=
  match m !! key with
  | Some (v :: _) => v
  | _ => EmptyString
  end.

End NetURL.

(** ** crypto/subtle, and Go's built-in string comparison

    Both comparisons return, next to their result, the number of byte
    pairs they examined: the observable the timing argument is about. *)

Module Subtle.

(** [ConstantTimeByteEq(x, y uint8) int]:
    [int((uint32(x^y) - 1) >> 31)]. *)
Definition ConstantTimeByteEq (x y : Z) : Z :=
  Z.shiftr ((Z.lxor x y - 1) mod 2 ^ 32) 31.

(** The loop [for i := 0; i < len(x); i++ { v |= x[i] ^ y[i] }]. *)
Fixpoint or_xor (v : Z) (x y : list Z) (steps : nat) : Z * nat :=
  match x, y with
  | a :: x', b :: y' => or_xor (Z.lor v (Z.lxor a b)) x' y' (S steps)
  | _, _ => (v, steps)
  end.

(** [subtle.ConstantTimeCompare] *)
Definition ConstantTimeCompare (x y : list Z) : Z * nat :=
  if negb (Nat.eqb (length x) (length y)) then (0, O)
  else let '(v, steps) := or_xor 0 x y O in (ConstantTimeByteEq v 0, steps).

End Subtle.

Module GoString.

(** The byte scan behind [==] on strings of equal length: it stops at the
    first differing byte. *)
Fixpoint memequal (x y : string) (steps : nat) : bool * nat :=
  match x, y with
  | String a x', String b y' =>
      if Ascii.eqb a b then memequal x' y' (S steps) else (false, S steps)
  | _, _ => (true, steps)
  end.

(** [x != y] on strings: lengths first, then the bytes. *)
Definition neq (x y : string) : bool * nat :=
  if negb (Nat.eqb (String.length x) (String.length y)) then (true, O)
  else let '(e, steps) := memequal x y O in (negb e, steps).

End GoString.

(** ** pkg/config *)

Module Config.
Record t := mk { URL : string; AppSecret : string }.
End Config.

(** ** pkg/data: records *)

(** [sql.NullString] *)
Module NullString.
Record t := mk { String : string; Valid : bool }.
Definition zero : t := mk "" false.
End NullString.

(** [time.Time] as stored in a [TIMESTAMP] column: microseconds since the
    Unix epoch.  The zero [time.Time{}] is 1 January of year 1, UTC. *)
Definition Time : Type := Z.
Definition zeroTime : Time := -62135596800000000.

Module Job.
Record t := mk {
  ID : string;
  Position : string;
  Organization : string;
  Url : NullString.t;
  Description : NullString.t;
  Email : string;
  PublishedAt : Time
}.
(** [var job Job] *)
Definition zero : t := mk "" "" "" NullString.zero NullString.zero "" zeroTime.
End Job.

Module Role.
Record t := mk {
  ID : string;
  Name : string;
  Email : string;
  Phone : NullString.t;
  Role : string;
  Resume : string;
  Linkedin : NullString.t;
  Website : NullString.t;
  Github : NullString.t;
  CompLow : NullString.t;
  CompHigh : NullString.t;
  PublishedAt : Time
}.
(** [var role Role] *)
Definition zero : t :=
  mk "" "" "" NullString.zero "" "" NullString.zero NullString.zero
     NullString.zero NullString.zero NullString.zero zeroTime.
End Role.

Module NewJob.
Record t := mk {
  Position : string;
  Organization : string;
  Url : string;
  Description : string;
  Email : string
}.
End NewJob.

Module NewRole.
Record t := mk {
  Name : string;
  Email : string;
  Phone : string;
  Role : string;
  Resume : string;
  Linkedin : string;
  Website : string;
  Github : string;
  CompLow : string;
  CompHigh : string
}.
End NewRole.

Definition ErrNoPosition : string := "Must provide a Position".
Definition ErrNoOrganization : string := "Must provide a Organization".
Definition ErrNoEmail : string := "Must provide an Email Address".
Definition ErrInvalidUrl : string := "Must provide a valid Url".
Definition ErrInvalidEmail : string := "Must provide a valid Email".
Definition ErrNoUrlOrDescription : string := "Must provide either a Url or a Description".
Definition ErrNoName : string := "Must provide a Name".
Definition ErrNoRole : string := "Must provide a Role".
Definition ErrNoResume : string := "Must provide a Resume".

(** [s != ""] *)
Definition nonempty (s : string) : bool := negb (String.eqb s "").

(** ** The storage backend

    The two tables, and the failure the backend currently answers every
    statement with, if any (a lost connection, say). *)

Inductive error :=
| ErrNoRows                 (* sql.ErrNoRows *)
| ErrDriver (msg : string). (* any other error of the driver *)

(** [errors.Is(err, sql.ErrNoRows)] *)
Definition is_ErrNoRows (e : error) : bool :=
  match e with ErrNoRows => true | ErrDriver _ => false end.

Record DB := mkDB {
  jobs : list Job.t;
  roles : list Role.t;
  fault : option string
}.

(** [db.Get(&job, "SELECT * FROM jobs WHERE id = $1", id)]: the first row
    is scanned into [job]; without a row [job] keeps its zero value and the
    error is [sql.ErrNoRows]. *)
Definition Get_job (db : DB) (id : string) : Job.t * option error :=
  match fault db with
  | Some msg => (Job.zero, Some (ErrDriver msg))
  | None =>
      match List.find (fun j => String.eqb (Job.ID j) id) (jobs db) with
      | Some j => (j, None)
      | None => (Job.zero, Some ErrNoRows)
      end
  end.

(** [db.Get(&role, "SELECT * FROM roles WHERE id = $1", id)] *)
Definition Get_role (db : DB) (id : string) : Role.t * option error :=
  match fault db with
  | Some msg => (Role.zero, Some (ErrDriver msg))
  | None =>
      match List.find (fun r => String.eqb (Role.ID r) id) (roles db) with
      | Some r => (r, None)
      | None => (Role.zero, Some ErrNoRows)
      end
  end.

(** data.go, [GetJob] *)
Definition GetJob (id : string) (db : DB) : Job.t * option error :=
  let '(job, err) := Get_job db id in
  match err with
  | Some e => if negb (is_ErrNoRows e) then (job, Some e) else (job, None)
  | None => (job, None)
  end.

(** data.go, [GetRole] *)
Definition GetRole (id : string) (db : DB) : Role.t * option error :=
  let '(role, err) := Get_role db id in
  match err with
  | Some e => if negb (is_ErrNoRows e) then (role, Some e) else (role, None)
  | None => (role, None)
  end.

(** data.go, [Job.Update] *)
Definition Job_Update (job : Job.t) (newParams : NewJob.t) : Job.t :=
  {| Job.ID := Job.ID job;
     Job.Position := NewJob.Position newParams;
     Job.Organization := NewJob.Organization newParams;
     Job.Url := NullString.mk (NewJob.Url newParams) (nonempty (NewJob.Url newParams));
     Job.Description :=
       NullString.mk (NewJob.Description newParams) (nonempty (NewJob.Description newParams));
     Job.Email := Job.Email job;
     Job.PublishedAt := Job.PublishedAt job |}.

(** data.go, [Role.Update] *)
Definition Role_Update (role : Role.t) (newParams : NewRole.t) : Role.t :=
  {| Role.ID := Role.ID role;
     Role.Name := NewRole.Name newParams;
     Role.Email := Role.Email role;
     Role.Phone := NullString.mk (NewRole.Phone newParams) (nonempty (NewRole.Phone newParams));
     Role.Role := NewRole.Role newParams;
     Role.Resume := NewRole.Resume newParams;
     Role.Linkedin :=
       NullString.mk (NewRole.Linkedin newParams) (nonempty (NewRole.Linkedin newParams));
     Role.Website :=
       NullString.mk (NewRole.Website newParams) (nonempty (NewRole.Website newParams));
     Role.Github := NullString.mk (NewRole.Github newParams) (nonempty (NewRole.Github newParams));
     Role.CompLow :=
       NullString.mk (NewRole.CompLow newParams) (nonempty (NewRole.CompLow newParams));
     Role.CompHigh :=
       NullString.mk (NewRole.CompHigh newParams) (nonempty (NewRole.CompHigh newParams));
     Role.PublishedAt := Role.PublishedAt role |}.

(** data.go, [Job.Save]:
    [UPDATE jobs SET position, organization, url, description WHERE id]. *)
Definition Job_Save (job : Job.t) (db : DB) : DB * option error :=
  match fault db with
  | Some msg => (db, Some (ErrDriver msg))
  | None =>
      let set (row : Job.t) : Job.t :=
        if String.eqb (Job.ID row) (Job.ID job) then
          {| Job.ID := Job.ID row;
             Job.Position := Job.Position job;
             Job.Organization := Job.Organization job;
             Job.Url := Job.Url job;
             Job.Description := Job.Description job;
             Job.Email := Job.Email row;
             Job.PublishedAt := Job.PublishedAt row |}
        else row in
      (mkDB (map set (jobs db)) (roles db) None, None)
  end.

(** ** The retention sweep of [run] (cmd/server/main.go)

    [DELETE FROM jobs WHERE published_at < NOW() - INTERVAL '30 DAYS'],
    with [now] the value of [NOW()]. *)

Definition retention : Z := 30 * 86400 * 1000000.

Definition expired (now : Time) (publishedAt : Time) : bool :=
  publishedAt <? now - retention.

Definition sweepPass (now : Time) (db : DB) : DB * option error :=
  match fault db with
  | Some msg => (db, Some (ErrDriver msg))
  | None =>
      (mkDB (List.filter (fun j => negb (expired now (Job.PublishedAt j))) (jobs db))
            (roles db) None, None)
  end.

(** The [for] loop of the goroutine, one pass per wake-up time; an error is
    logged and the loop goes on. *)
Definition sweeper (wakeups : list Time) (db : DB) : DB :=
  fold_left (fun d now => fst (sweepPass now d)) wakeups db.

(** ** Requests, sessions and responses (gin) *)

(** [session.Values]: the flash messages stored under each key. *)
Abbreviation Session := (gmap string (list string)).

(** [session.AddFlash(value, key)] *)
Definition AddFlash (value key : string) (s : Session) : Session :=
  <[key := default [] (s !! key) ++ [value]]> s.

(** The key [AddFlash] uses when it is given none. *)
Definition flashKey : string := "_flash".

Record Context := mkContext {
  Param_id : string;            (* ctx.Param("id") *)
  RawQuery : string;            (* ctx.Request.URL.RawQuery *)
  Form : option NewJob.t;       (* what ctx.Bind yields; None when it fails *)
  Flashes : Session             (* sessions.Default(ctx) *)
}.

(** [ctx.Query(key)] *)
Definition Query (ctx : Context) (key : string) : string :=
  NetURL.Get (NetURL.ParseQuery (RawQuery ctx)) key.

(** What a middleware leaves behind: the chain goes on, or was aborted
    with a status. *)
Inductive Outcome :=
| Next
| Abort (status : Z).

Record AuthResult := mkAuth {
  outcome : Outcome;
  cmp_steps : nat   (* byte pairs examined by the token comparison *)
}.

Inductive Response :=
| AbortWithStatus (status : Z)
| Redirect (status : Z) (location : string).

Record Handled := mkHandled {
  response : Response;
  session : Session;
  store : DB
}.

Definition JobRoute : string := "job".
Definition RoleRoute : string := "role".

(** ** A rendering of [time.Time.String] for UTC instants

    [2006-01-02 15:04:05.999999 +0000 UTC], for years 0 to 9999; used where
    a concrete [Time_String] is needed. *)

Module UTC.

Fixpoint digits (fuel : nat) (n : Z) (acc : string) : string :=
  match fuel with
  | O => acc
  | S f =>
      let acc' := String (ascii_of_N (Z.to_N (48 + n mod 10))) acc in
      if n <? 10 then acc' else digits f (n / 10) acc'
  end.

Fixpoint zeros (n : nat) : string :=
  match n with O => EmptyString | S n' => String "0" (zeros n') end.

(** [n] in decimal on at least [width] digits *)
Definition dec (width : nat) (n : Z) : string :=
  let d := digits 20 n EmptyString in
  zeros (width - String.length d) +:+ d.

Fixpoint strip0 (s : string) : string :=
  match s with
  | EmptyString => EmptyString
  | String c s' =>
      match strip0 s' with
      | EmptyString => if Ascii.eqb c "0" then EmptyString else String c EmptyString
      | r => String c r
      end
  end.

Definition String (t : Time) : string :=
  let usec := t mod 1000000 in
  let secs := t / 1000000 in
  let sod := secs mod 86400 in
  let z := secs / 86400 + 719468 in
  let era := z / 146097 in
  let doe := z mod 146097 in
  let yoe := (doe - doe / 1460 + doe / 36524 - doe / 146096) / 365 in
  let doy := doe - (365 * yoe + yoe / 4 - yoe / 100) in
  let mp := (5 * doy + 2) / 153 in
  let d := doy - (153 * mp + 2) / 5 + 1 in
  let m := if mp <? 10 then mp + 3 else mp - 9 in
  let y := yoe + era * 400 + (if m <=? 2 then 1 else 0) in
  let frac := if usec =? 0 then EmptyString else "." +:+ strip0 (dec 6 usec) in
  dec 4 y +:+ "-" +:+ dec 2 m +:+ "-" +:+ dec 2 d +:+ " "
    +:+ dec 2 (sod / 3600) +:+ ":" +:+ dec 2 (sod / 60 mod 60) +:+ ":"
    +:+ dec 2 (sod mod 60) +:+ frac +:+ " +0000 UTC".

End UTC.

(** Lower-case hexadecimal, as digests are printed in test vectors. *)
Definition hex_of (bs : list Z) : string :=
  GoBytes.to_string
    (flat_map (fun b =>
       let d x := if x <? 10 then 48 + x else 87 + x in
       [d (Z.shiftr b 4); d (Z.land b 15)]) bs).

Definition is_byte (b : Z) : Prop := 0 <= b < 256.

(** A listing of either kind, to state what holds of both. *)
Inductive Listing :=
| AJob (job : Job.t)
| ARole (role : Role.t).

Definition listing_ID (r : Listing) : string :=
  match r with AJob j => Job.ID j | ARole ro => Role.ID ro end.

Definition listing_Email (r : Listing) : string :=
  match r with AJob j => Job.Email j | ARole ro => Role.Email ro end.

Definition listing_PublishedAt (r : Listing) : Time :=
  match r with AJob j => Job.PublishedAt j | ARole ro => Role.PublishedAt ro end.

(** The [authType] its routes are registered with in [NewServer]. *)
Definition authType (r : Listing) : string :=
  match r with AJob _ => JobRoute | ARole _ => RoleRoute end.

(** [r] is the row the backend returns for its id. *)
Definition stored (db : DB) (r : Listing) : Prop :=
  match r with
  | AJob j => Get_job db (Job.ID j) = (j, None)
  | ARole ro => Get_role db (Role.ID ro) = (ro, None)
  end.

(** The identity of a stored row, as the signature sees it. *)
Definition identity (j : Job.t) : string * string * Time :=
  (Job.ID j, Job.Email j, Job.PublishedAt j).

(** ** Sample data for the closed examples *)

Definition job1 : Job.t :=
  Job.mk "1" "Pos" "Org" (NullString.mk "https://devict.org" true) NullString.zero
         "a@b.com" 1709210096123400.

Definition role1 : Role.t :=
  Role.mk "1" "Test" "test@example.com" (NullString.mk "316-555-1515" true) "any"
          "# hey" NullString.zero NullString.zero NullString.zero NullString.zero
          NullString.zero 1709210096123400.

Definition db1 : DB := mkDB [job1] [role1] None.

Definition cfg1 : Config.t := Config.mk "http://localhost:8080" "sup".

(** The position of a character in the base64 alphabet ([64] when it is
    not there): the decoding map of the encoding. *)
Fixpoint index_of (c : ascii) (alphabet : string) : Z :=
  match alphabet with
  | EmptyString => 0
  | String d rest => if Ascii.eqb c d then 0 else 1 + index_of c rest
  end.

(** A request for [id] whose query carries [token], escaped as
    [SignedJobRoute] escapes it. *)
Definition request (id token : string) (form : option NewJob.t) : Context :=
  mkContext id ("token=" +:+ NetURL.QueryEscape token) form ∅.

Definition job2 : Job.t :=
  Job.mk "2" "Pos 2" "Org" NullString.zero (NullString.mk "A description" true)
         "c@d.com" 1709210096123400.

(** The backend while it cannot be reached. *)
Definition db_down : DB := mkDB [job1] [role1] (Some "connection refused"%string).

(** A payload with neither url nor description. *)
Definition bare_form : NewJob.t := NewJob.mk "Pos" "Org" "" "" "".

(** The signature of [job1] under the secret ["sup"], and two strings of
    its length that differ from it in the first and in the next-to-last
    byte. *)
Definition token1 : string := "fig9EatgxEySJJ3eDr-2ZOgRpyHBrqkSkG8yPe0L5so=".
Definition token1_wrong_head : string := "Xig9EatgxEySJJ3eDr-2ZOgRpyHBrqkSkG8yPe0L5so=".
Definition token1_wrong_tail : string := "fig9EatgxEySJJ3eDr-2ZOgRpyHBrqkSkG8yPe0L5sX=".

(** A role published in 1970, and the instant used as [NOW()]. *)
Definition old_role : Role.t :=
  Role.mk "9" "Old" "old@example.com" NullString.zero "any" "# cv" NullString.zero
          NullString.zero NullString.zero NullString.zero NullString.zero 0.

Definition old_job : Job.t :=
  Job.mk "9" "Old" "Org" NullString.zero NullString.zero "old@example.com" 0.

Definition db_old : DB := mkDB [old_job; job1] [old_role; role1] None.

Definition now1 : Time := 1709210096123400 + 86400 * 1000000.

(** Built by hand, under an id that no serial column yields: a job and a
    role with different ids and timestamps whose signed strings coincide
    under the secret [colliding_secret]. *)
Definition colliding_job : Job.t :=
  Job.mk "7" "Pos" "Org" NullString.zero NullString.zero
         "x:a@b.c:1970-01-01 00:00:00 +0000 UTC:k" 1709210096000000.

Definition colliding_role : Role.t :=
  Role.mk "7:x" "Name" "a@b.c" NullString.zero "any" "# cv" NullString.zero
          NullString.zero NullString.zero NullString.zero NullString.zero 0.

Definition colliding_secret : string := "k:2024-02-29 12:34:56 +0000 UTC".

(** Built by hand as well: two jobs with different ids and one signed
    string. *)
Definition twin_job_a : Job.t :=
  Job.mk "1" "Pos" "Org" NullString.zero NullString.zero "2:x@y.z" 0.

Definition twin_job_b : Job.t :=
  Job.mk "1:2" "Pos" "Org" NullString.zero NullString.zero "x@y.z" 0.

Section Server.

(** [time.Time.String] *)
Variable Time_String : Time -> string.
(** [url.ParseRequestURI] and [mail.ParseAddress] return no error *)
Variable ParseRequestURI_ok : string -> bool.
Variable ParseAddress_ok : string -> bool.
(** [signatureForJob] of the first server.go, whose definition is not
    among the sources *)
Variable signatureForJob : Job.t -> string -> string.

(** The string handed to the HMAC by [Job.AuthSignature]:
    [fmt.Sprintf("%s:%s:%s", job.ID, job.Email, job.PublishedAt.String())] *)
Definition Job_input (job : Job.t) : string :=
  Job.ID job +:+ ":" +:+ Job.Email job +:+ ":" +:+ Time_String (Job.PublishedAt job).

(** data.go, [Job.AuthSignature] *)
Definition Job_AuthSignature (job : Job.t) (secret : string) : string :=
  Base64.EncodeToString
    (HMAC.SumSHA256 (GoBytes.of_string secret) (GoBytes.of_string (Job_input job))).

(** The string handed to the HMAC by [Role.AuthSignature]:
    [fmt.Sprintf("%s:%s:%s:%s", role.ID, role.Email,
                 role.PublishedAt.String(), secret)] *)
Definition Role_input (role : Role.t) (secret : string) : string :=
  Role.ID role +:+ ":" +:+ Role.Email role +:+ ":"
    +:+ Time_String (Role.PublishedAt role) +:+ ":" +:+ secret.

(** data.go, [Role.AuthSignature] *)
Definition Role_AuthSignature (role : Role.t) (secret : string) : string :=
  Base64.EncodeToString
    (HMAC.SumSHA256 (GoBytes.of_string secret)
       (GoBytes.of_string (Role_input role secret))).

(** data.go, [NewJob.Validate] *)
Definition NewJob_Validate (newJob : NewJob.t) (update : bool) : gmap string string :=
  let errs : gmap string string := ∅ in
  let errs :=
    if String.eqb (NewJob.Position newJob) "" then <["position" := ErrNoPosition]> errs
    else errs in
  let errs :=
    if String.eqb (NewJob.Organization newJob) ""
    then <["organization" := ErrNoOrganization]> errs
    else errs in
  let errs :=
    if String.eqb (NewJob.Url newJob) "" && String.eqb (NewJob.Description newJob) ""
    then <["url" := ErrNoUrlOrDescription]> errs
    else if String.eqb (NewJob.Description newJob) "" then
      if ParseRequestURI_ok (NewJob.Url newJob) then errs
      else <["url" := ErrInvalidUrl]> errs
    else errs in
  let errs :=
    if negb update then
      if String.eqb (NewJob.Email newJob) "" then <["email" := ErrNoEmail]> errs
      else if ParseAddress_ok (NewJob.Email newJob) then errs
      else <["email" := ErrInvalidEmail]> errs
    else errs in
  errs.

(** data.go, [NewRole.Validate] *)
Definition NewRole_Validate (newRole : NewRole.t) (update : bool) : gmap string string :=
  let errs : gmap string string := ∅ in
  let errs :=
    if String.eqb (NewRole.Name newRole) "" then <["name" := ErrNoName]> errs else errs in
  let errs :=
    if negb update then
      if String.eqb (NewRole.Email newRole) "" then <["email" := ErrNoEmail]> errs
      else if ParseAddress_ok (NewRole.Email newRole) then errs
      else <["email" := ErrInvalidEmail]> errs
    else errs in
  let errs :=
    if String.eqb (NewRole.Role newRole) "" then <["role" := ErrNoRole]> errs else errs in
  let errs :=
    if String.eqb (NewRole.Resume newRole) "" then <["resume" := ErrNoResume]> errs
    else errs in
  let check (field value : string) (errs : gmap string string) :=
    if nonempty value then
      if ParseRequestURI_ok value then errs else <[field := ErrInvalidUrl]> errs
    else errs in
  let errs := check "linkedin" (NewRole.Linkedin newRole) errs in
  let errs := check "website" (NewRole.Website newRole) errs in
  let errs := check "github" (NewRole.Github newRole) errs in
  errs.

(** [SignedJobRoute]:
    [fmt.Sprintf("%s/jobs/%s/edit?token=%s", c.URL, job.ID,
                 url.QueryEscape(job.AuthSignature(c.AppSecret)))] *)
Definition SignedJobRoute (job : Job.t) (c : Config.t) : string :=
  Config.URL c +:+ "/jobs/" +:+ Job.ID job +:+ "/edit?token="
    +:+ NetURL.QueryEscape (Job_AuthSignature job (Config.AppSecret c)).

(** [SignedRoleRoute] *)
Definition SignedRoleRoute (role : Role.t) (c : Config.t) : string :=
  Config.URL c +:+ "/roles/" +:+ Role.ID role +:+ "/edit?token="
    +:+ NetURL.QueryEscape (Role_AuthSignature role (Config.AppSecret c)).

(** The last step of [requireTokenAuth]:
    [if subtle.ConstantTimeCompare(expected, token) == 0 { abort 403 }] *)
Definition compareToken (expected : list Z) (ctx : Context) : AuthResult :=
  let token := GoBytes.of_string (Query ctx "token") in
  let '(r, steps) := Subtle.ConstantTimeCompare expected token in
  if r =? 0 then mkAuth (Abort 403) steps else mkAuth Next steps.

(** server.go, [requireTokenAuth] (the version serving jobs and roles) *)
Definition requireTokenAuth (db : DB) (secret authType : string) (ctx : Context)
  : AuthResult :=
  if String.eqb authType JobRoute then
    let jobID := Param_id ctx in
    let '(job, err) := GetJob jobID db in
    match err with
    | Some _ => mkAuth (Abort 500) O
    | None =>
        if negb (String.eqb (Job.ID job) jobID) then mkAuth (Abort 404) O
        else compareToken (GoBytes.of_string (Job_AuthSignature job secret)) ctx
    end
  else if String.eqb authType RoleRoute then
    let roleID := Param_id ctx in
    let '(role, err) := GetRole roleID db in
    match err with
    | Some _ => mkAuth (Abort 500) O
    | None =>
        if negb (String.eqb (Role.ID role) roleID) then mkAuth (Abort 404) O
        else compareToken (GoBytes.of_string (Role_AuthSignature role secret)) ctx
    end
  else mkAuth (Abort 500) O.

(** server.go, [requireAuth] (the first version of the file) *)
Definition requireAuth (db : DB) (secret : string) (ctx : Context) : AuthResult :=
  let jobID := Param_id ctx in
  let '(job, err) := GetJob jobID db in
  match err with
  | Some _ => mkAuth (Abort 500) O
  | None =>
      let token := Query ctx "token" in
      let expected := signatureForJob job secret in
      let '(differ, steps) := GoString.neq token expected in
      if differ then mkAuth (Abort 403) steps else mkAuth Next steps
  end.

(** [for k, v := range errs { session.AddFlash(v, k + "_err") }] *)
Definition flashErrors (errs : gmap string string) (s : Session) : Session :=
  map_fold (fun k v acc => AddFlash v (k +:+ "_err") acc) s errs.

(** routes.go, [Controller.UpdateJob].

    [Form ctx = None] is a failure of [ctx.Bind].  gin's [Bind] has then
    aborted the request with status 400 and written the header, so the
    [AbortWithStatus(500)] of the handler that follows leaves the status of
    the response at 400. *)
Definition UpdateJob (db : DB) (ctx : Context) : Handled :=
  let id := Param_id ctx in
  match Form ctx with
  | None => mkHandled (AbortWithStatus 400) (Flashes ctx) db
  | Some newJobInput =>
      let errs := NewJob_Validate newJobInput true in
      if negb (Nat.eqb (size errs) 0) then
        let token := Query ctx "token" in
        mkHandled (Redirect 302 ("/jobs/" +:+ id +:+ "/edit?token=" +:+ token))
                  (flashErrors errs (Flashes ctx)) db
      else
        let '(job, err) := GetJob id db in
        match err with
        | Some _ => mkHandled (AbortWithStatus 500) (Flashes ctx) db
        | None =>
            let job := Job_Update job newJobInput in
            let '(db', err) := Job_Save job db in
            match err with
            | Some _ => mkHandled (AbortWithStatus 500) (Flashes ctx) db'
            | None =>
                mkHandled (Redirect 302 "/")
                          (AddFlash "Job updated!" flashKey (Flashes ctx)) db'
            end
        end
  end.

(** [authorizedJobs.POST(":id", ctrl.UpdateJob)] behind
    [requireTokenAuth(sqlxDb, c.Config.AppSecret, JobRoute)] *)
Definition POST_jobs_id (c : Config.t) (db : DB) (ctx : Context) : Handled :=
  match outcome (requireTokenAuth db (Config.AppSecret c) JobRoute ctx) with
  | Abort status => mkHandled (AbortWithStatus status) (Flashes ctx) db
  | Next => UpdateJob db ctx
  end.

(** [AuthSignature] of a listing of either kind, and the string it signs *)
Definition AuthSignature (r : Listing) (secret : string) : string :=
  match r with
  | AJob j => Job_AuthSignature j secret
  | ARole ro => Role_AuthSignature ro secret
  end.

Definition input (r : Listing) (secret : string) : string :=
  match r with
  | AJob j => Job_input j
  | ARole ro => Role_input ro secret
  end.

(** The signature as the specification words it: the HMAC of the identity
    fields id, email and stringified publishedAt joined by [":"]. *)
Definition spec_sign (r : Listing) (secret : string) : string :=
  Base64.EncodeToString
    (HMAC.SumSHA256 (GoBytes.of_string secret)
       (GoBytes.of_string
          (String.concat ":"
             [listing_ID r; listing_Email r; Time_String (listing_PublishedAt r)]))).

End Server.

(** * Further code of the repository *)

(** ** [strings] and [strconv] *)

Module GoStrings.

(** [strings.HasPrefix] *)
Fixpoint HasPrefix (s prefix : string) : bool :=
  match prefix with
  | EmptyString => true
  | String p prefix' =>
      match s with
      | EmptyString => false
      | String c s' => Ascii.eqb c p && HasPrefix s' prefix'
      end
  end.

(** [strings.Contains] *)
Fixpoint Contains (s substr : string) : bool :=
  HasPrefix s substr
  || match s with
     | EmptyString => false
     | String _ s' => Contains s' substr
     end.

(** [strconv.FormatInt(n, 10)], for the 64-bit integers a serial column
    holds. *)
Definition FormatInt (n : Z) : string :=
  if n <? 0 then String "-" (UTC.digits 20 (- n) EmptyString)
  else UTC.digits 20 n EmptyString.

End GoStrings.

(** ** pkg/config: [Config] in full, and [LoadConfig] *)

Module EnvConfig.

Record EmailConfig := mkEmail {
  SMTPHost : string;
  FromEmail : string;
  SMTPUsername : string;
  SMTPPassword : string
}.

Record TwitterConfig := mkTwitter {
  AccessToken : string;
  AccessTokenSecret : string;
  APIKey : string;
  APISecretKey : string
}.

Record t := mk {
  URL : string;
  Port : string;
  Env : string;
  AppSecret : string;
  DatabaseURL : string;
  Email : option EmailConfig;
  Twitter : option TwitterConfig;
  SlackHook : string;
  AdminUser : string;
  AdminPassword : string
}.

Definition with_DatabaseURL (config : t) (v : string) : t :=
  mk (URL config) (Port config) (Env config) (AppSecret config) v (Email config)
     (Twitter config) (SlackHook config) (AdminUser config) (AdminPassword config).

Definition with_Port (config : t) (v : string) : t :=
  mk (URL config) v (Env config) (AppSecret config) (DatabaseURL config)
     (Email config) (Twitter config) (SlackHook config) (AdminUser config)
     (AdminPassword config).

(** [LoadConfig], given what [envconfig.Process("", &config)] left in
    [config] and the error it returned. *)
Definition LoadConfig (config : t) (err : option string) : t * option string :=
  match err with
  | Some e => (config, Some e)
  | None =>
      let config :=
        if negb (GoStrings.Contains (DatabaseURL config) "sslmode=disable")
        then with_DatabaseURL config (DatabaseURL config +:+ "?sslmode=disable")
        else config in
      let config :=
        if negb (GoStrings.Contains (Port config) ":")
        then with_Port config (":" +:+ Port config)
        else config in
      (config, None)
  end.

End EnvConfig.

(** ** pkg/data: inserting and deleting *)

(** Why [DeleteJob] failed: the statement did, or it did not delete
    exactly one row ([fmt.Errorf("failed to delete job: %w", err)]). *)
Inductive DeleteError :=
| ExecFailed (e : error)
| NotOneRow (rowsAffected : nat).

(** data.go (the version with [DeleteJob]):
    [DELETE FROM jobs WHERE id = $1], then the check of [RowsAffected]. *)
Definition DeleteJob (id : string) (db : DB) : DB * option DeleteError :=
  match fault db with
  | Some msg => (db, Some (ExecFailed (ErrDriver msg)))
  | None =>
      let hit (j : Job.t) := String.eqb (Job.ID j) id in
      let rowsAffected := length (List.filter hit (jobs db)) in
      let db' := mkDB (List.filter (fun j => negb (hit j)) (jobs db)) (roles db) None in
      if negb (Nat.eqb rowsAffected 1) then (db', Some (NotOneRow rowsAffected))
      else (db', None)
  end.

(** data.go, [NewJob.SaveToDB]:
    [INSERT INTO jobs (position, organization, url, description, email)
     VALUES ($1, $2, $3, $4, $5) RETURNING *].
    The statement leaves [id] and [published_at] to the backend, which
    takes them from the table's sequence and from its clock: [serial] and
    [now] are what they yield for this statement.  (The schema of the
    repository declares [id SERIAL PRIMARY KEY] and [published_at TIMESTAMP
    DEFAULT current_timestamp] for the roles; the jobs are taken to be
    declared alike.)  The id is a primary key, so a value already in the
    table is refused. *)
Definition NewJob_SaveToDB (newJob : NewJob.t) (serial : Z) (now : Time) (db : DB)
  : DB * (Job.t * option error) :=
  match fault db with
  | Some msg => (db, (Job.zero, Some (ErrDriver msg)))
  | None =>
      let job :=
        Job.mk (GoStrings.FormatInt serial)
               (NewJob.Position newJob) (NewJob.Organization newJob)
               (NullString.mk (NewJob.Url newJob) (nonempty (NewJob.Url newJob)))
               (NullString.mk (NewJob.Description newJob)
                              (nonempty (NewJob.Description newJob)))
               (NewJob.Email newJob) now in
      if existsb (fun row => String.eqb (Job.ID row) (Job.ID job)) (jobs db)
      then (db, (Job.zero, Some (ErrDriver "duplicate key value")))
      else (mkDB (jobs db ++ [job]) (roles db) None, (job, None))
  end.

(** data.go, [Role.Save]: [UPDATE roles SET name, phone, role, resume,
    linkedin, website, github, comp_low, comp_high WHERE id]. *)
Definition Role_Save (role : Role.t) (db : DB) : DB * option error :=
  match fault db with
  | Some msg => (db, Some (ErrDriver msg))
  | None =>
      let set (row : Role.t) : Role.t :=
        if String.eqb (Role.ID row) (Role.ID role) then
          {| Role.ID := Role.ID row;
             Role.Name := Role.Name role;
             Role.Email := Role.Email row;
             Role.Phone := Role.Phone role;
             Role.Role := Role.Role role;
             Role.Resume := Role.Resume role;
             Role.Linkedin := Role.Linkedin role;
             Role.Website := Role.Website role;
             Role.Github := Role.Github role;
             Role.CompLow := Role.CompLow role;
             Role.CompHigh := Role.CompHigh role;
             Role.PublishedAt := Role.PublishedAt row |}
        else row in
      (mkDB (jobs db) (map set (roles db)) None, None)
  end.

(** A [sql.NullString] as the write paths build it and as a scan of a
    column yields it: valid exactly when the text is not empty. *)
Definition NullString_wf (n : NullString.t) : Prop :=
  NullString.Valid n = nonempty (NullString.String n).

Definition Job_wf (j : Job.t) : Prop :=
  NullString_wf (Job.Url j) /\ NullString_wf (Job.Description j).

(** ** Sessions and pages (gorilla/sessions, gin) *)

(** [session.Flashes(key)]: the messages under [key], which are dropped
    from the session. *)
Definition Session_Flashes (key : string) (s : Session) : list string * Session :=
  (default [] (s !! key), delete key s).

(** What a handler puts into a [gin.H]. *)
Inductive Value :=
| VJob (job : Job.t)
| VString (s : string)
| VFlashes (messages : list string)
| VHTML (html : string).

(** What a handler that renders leaves behind on the response. *)
Inductive Page :=
| PageAbort (status : Z)
| PageHTML (status : Z) (name : string) (vars : gmap string Value).

Record Rendered := mkRendered {
  page : Page;
  page_session : Session
}.

(** routes.go, [addFlash] *)
Definition addFlash (s : Session) (base : gmap string Value)
  : gmap string Value * Session :=
  let '(flashes, s') := Session_Flashes flashKey s in
  (<["flashes" := VFlashes flashes]> base, s').

(** The [fields] of [NewJob] and [EditJob] *)
Definition flashFields : list string :=
  ["position"; "organization"; "url"; "description"; "email"].

(** [for _, k := range fields { f := k + "_err"; tVars[f] = session.Flashes(f) }] *)
Definition takeFieldErrors (fields : list string) (tVars : gmap string Value) (s : Session)
  : gmap string Value * Session :=
  fold_left
    (fun (acc : gmap string Value * Session) k =>
       let f := k +:+ "_err" in
       let '(flashes, s') := Session_Flashes f (snd acc) in
       (<[f := VFlashes flashes]> (fst acc), s'))
    fields (tVars, s).

(** What the notification services were asked to do. *)
Record Mail := mkMail {
  recipient : string;
  subject : string;
  body : string
}.

(** The services of the [Controller]: [None] for a nil interface; the
    function is the error the call returns, if any. *)
Record Services := mkServices {
  EmailService : option (Mail -> option string);
  SlackService : option (Job.t -> option string);
  TwitterService : option (Job.t -> option string)
}.

Record Created := mkCreated {
  created_response : Response;
  created_session : Session;
  created_store : DB;
  emails : list Mail;
  slacks : list Job.t;
  tweets : list Job.t
}.

Section Handlers.

Variable Time_String : Time -> string.
Variable ParseRequestURI_ok : string -> bool.
Variable ParseAddress_ok : string -> bool.
(** [markdown.Convert] of goldmark: the HTML, or [None] for an error *)
Variable markdown_Convert : string -> option string.
(** The literal text of the message template of [CreateJob] before, between
    and after its three [%s] *)
Variable message_1 message_2 message_3 message_4 : string.

(** routes.go, [Controller.EditJob] *)
Definition EditJob (db : DB) (ctx : Context) : Rendered :=
  let id := Param_id ctx in
  let '(job, err) := GetJob id db in
  match err with
  | Some _ => mkRendered (PageAbort 500) (Flashes ctx)
  | None =>
      let token := Query ctx "token" in
      let tVars : gmap string Value :=
        <["token" := VString token]> (<["job" := VJob job]> ∅) in
      let '(tVars, s) := takeFieldErrors flashFields tVars (Flashes ctx) in
      let '(tVars, s) := addFlash s tVars in
      mkRendered (PageHTML 200 "edit" tVars) s
  end.

(** [authorizedJobs.GET(":id/edit", ctrl.EditJob)] behind
    [requireTokenAuth(sqlxDb, c.Config.AppSecret, JobRoute)] *)
Definition GET_jobs_id_edit (c : Config.t) (db : DB) (ctx : Context) : Rendered :=
  match outcome (requireTokenAuth Time_String db (Config.AppSecret c) JobRoute ctx) with
  | Abort status => mkRendered (PageAbort status) (Flashes ctx)
  | Next => EditJob db ctx
  end.

(** data.go, [Job.RenderDescription]: the HTML and whether the conversion
    failed *)
Definition Job_RenderDescription (job : Job.t) : string * bool :=
  if negb (NullString.Valid (Job.Description job)) then (EmptyString, false)
  else
    match markdown_Convert (NullString.String (Job.Description job)) with
    | Some html => (html, false)
    | None => (EmptyString, true)
    end.

(** routes.go, [Controller.ViewJob] *)
Definition ViewJob (db : DB) (ctx : Context) : Page :=
  let id := Param_id ctx in
  let '(job, err) := GetJob id db in
  match err with
  | Some _ => PageAbort 500
  | None =>
      let '(description, failed) := Job_RenderDescription job in
      let description :=
        if failed then NullString.String (Job.Description job) else description in
      PageHTML 200 "view"
        (<["description" := VHTML description]> (<["job" := VJob job]> ∅))
  end.

(** The message [CreateJob] mails:
    [fmt.Sprintf(template, newJobInput.Position, newJobInput.Position,
                 SignedJobRoute(job, ctrl.Config))] *)
Definition createdMessage (position link : string) : string :=
  message_1 +:+ position +:+ message_2 +:+ position +:+ message_3 +:+ link
    +:+ message_4.

(** routes.go, [Controller.CreateJob]; [serial] and [now] as for
    [NewJob_SaveToDB], a failure of [ctx.Bind] as in [UpdateJob] *)
Definition CreateJob (svc : Services) (c : Config.t) (serial : Z) (now : Time)
    (db : DB) (ctx : Context) : Created :=
  match Form ctx with
  | None => mkCreated (AbortWithStatus 400) (Flashes ctx) db [] [] []
  | Some newJobInput =>
      let errs := NewJob_Validate ParseRequestURI_ok ParseAddress_ok newJobInput false in
      if negb (Nat.eqb (size errs) 0) then
        mkCreated (Redirect 302 "/new") (flashErrors errs (Flashes ctx)) db [] [] []
      else
        let '(db', (job, err)) := NewJob_SaveToDB newJobInput serial now db in
        match err with
        | Some _ =>
            mkCreated (Redirect 302 "/new")
                      (AddFlash "Error creating job" flashKey (Flashes ctx)) db' [] [] []
        | None =>
            let mail :=
              mkMail (NewJob.Email newJobInput)
                     ("Job " +:+ NewJob.Position newJobInput +:+ " Created!")
                     (createdMessage (NewJob.Position newJobInput)
                                     (SignedJobRoute Time_String job c)) in
            mkCreated (Redirect 302 "/")
                      (AddFlash "Job created!" flashKey (Flashes ctx)) db'
                      (match EmailService svc with Some _ => [mail] | None => [] end)
                      (match SlackService svc with Some _ => [job] | None => [] end)
                      (match TwitterService svc with Some _ => [job] | None => [] end)
        end
  end.

End Handlers.

(** ** Sample data for the further code *)

(** A payload that passes validation on creation, and one that passes it
    on update. *)
Definition full_form : NewJob.t :=
  NewJob.mk "Pos" "Org" "https://devict.org" "" "a@b.com".

Definition new_text_form : NewJob.t := NewJob.mk "New" "Org" "" "Text" "".

Definition role_form : NewRole.t :=
  NewRole.mk "Test 2" "other@example.com" "" "backend" "# cv" "" "" "" "" "".

(** Only the mail service is configured, and it accepts every message. *)
Definition mail_only : Services := mkServices (Some (fun _ => None)) None None.

Definition db2 : DB := mkDB [job1; job2] [role1] None.

(** The request that follows the redirect of a rejected update. *)
Definition after_rejection : Context :=
  mkContext "1" ("token=" +:+ NetURL.QueryEscape token1) None
    (session (UpdateJob (fun _ => true) (fun _ => true) db1
                (request "1" token1 (Some bare_form)))).

(** * Properties *)

(** ** Byte strings *)

Lemma byte_of_ascii_range (c : ascii) : is_byte (GoBytes.byte_of_ascii c).
Proof.
  unfold is_byte, GoBytes.byte_of_ascii.
  pose proof (N_ascii_bounded c) as Hb. lia.
Qed.

Lemma byte_of_ascii_inj (c d : ascii) :
  GoBytes.byte_of_ascii c = GoBytes.byte_of_ascii d -> c = d.
Proof.
  unfold GoBytes.byte_of_ascii. intros H.
  apply N2Z.inj in H.
  rewrite <- (ascii_N_embedding c), <- (ascii_N_embedding d). now rewrite H.
Qed.

Lemma of_string_bytes (s : string) : Forall is_byte (GoBytes.of_string s).
Proof.
  induction s as [|c s IH]; simpl; constructor; auto using byte_of_ascii_range.
Qed.

Lemma of_string_inj (s t : string) :
  GoBytes.of_string s = GoBytes.of_string t -> s = t.
Proof.
  revert t. induction s as [|c s IH]; intros [|d t] H; simpl in H;
    try discriminate; auto.
  injection H as Hc Hs. f_equal; auto using byte_of_ascii_inj.
Qed.

Lemma of_string_length (s : string) :
  length (GoBytes.of_string s) = String.length s.
Proof. induction s as [|c s IH]; simpl; congruence. Qed.

(** ** crypto/subtle *)

Lemma lor_byte (a b : Z) : is_byte a -> is_byte b -> is_byte (Z.lor a b).
Proof.
  unfold is_byte. intros Ha Hb.
  assert (Hn : 0 <= Z.lor a b) by (apply Z.lor_nonneg; lia).
  split; [exact Hn|].
  destruct (Z.eq_dec (Z.lor a b) 0) as [->|Hz]; [lia|].
  change 256 with (2 ^ 8). apply Z.log2_lt_pow2; [lia|].
  rewrite Z.log2_lor by lia.
  assert (La : Z.log2 a < 8).
  { destruct (Z.eq_dec a 0) as [->|]; [reflexivity|].
    apply Z.log2_lt_pow2; simpl; lia. }
  assert (Lb : Z.log2 b < 8).
  { destruct (Z.eq_dec b 0) as [->|]; [reflexivity|].
    apply Z.log2_lt_pow2; simpl; lia. }
  lia.
Qed.

Lemma lxor_byte (a b : Z) : is_byte a -> is_byte b -> is_byte (Z.lxor a b).
Proof.
  unfold is_byte. intros Ha Hb.
  assert (Hn : 0 <= Z.lxor a b) by (apply Z.lxor_nonneg; lia).
  split; [exact Hn|].
  destruct (Z.eq_dec (Z.lxor a b) 0) as [->|Hz]; [lia|].
  change 256 with (2 ^ 8). apply Z.log2_lt_pow2; [lia|].
  pose proof (Z.log2_lxor a b ltac:(lia) ltac:(lia)) as Hl.
  assert (La : Z.log2 a < 8).
  { destruct (Z.eq_dec a 0) as [->|]; [reflexivity|].
    apply Z.log2_lt_pow2; simpl; lia. }
  assert (Lb : Z.log2 b < 8).
  { destruct (Z.eq_dec b 0) as [->|]; [reflexivity|].
    apply Z.log2_lt_pow2; simpl; lia. }
  lia.
Qed.

Lemma ConstantTimeByteEq_zero (v : Z) :
  is_byte v -> Subtle.ConstantTimeByteEq v 0 = if v =? 0 then 1 else 0.
Proof.
  unfold is_byte, Subtle.ConstantTimeByteEq. intros Hv.
  rewrite Z.lxor_0_r.
  destruct (Z.eqb_spec v 0) as [->|Hne]; [reflexivity|].
  rewrite Z.mod_small by lia.
  rewrite Z.shiftr_div_pow2 by lia.
  apply Z.div_small. change (2 ^ 31) with 2147483648. lia.
Qed.

(** The loop examines every byte pair, whatever the bytes are, and its
    accumulator is zero exactly when the two slices are equal. *)
Lemma or_xor_spec (x : list Z) :
  forall (y : list Z) (v : Z) (n : nat),
    length x = length y -> Forall is_byte x -> Forall is_byte y -> is_byte v ->
    snd (Subtle.or_xor v x y n) = (n + length x)%nat
    /\ is_byte (fst (Subtle.or_xor v x y n))
    /\ (fst (Subtle.or_xor v x y n) = 0 <-> v = 0 /\ x = y).
Proof.
  induction x as [|a x IH]; intros [|b y] v n Hlen Hx Hy Hv; simpl in Hlen;
    try discriminate.
  - simpl. split; [lia|]. split; [exact Hv|]. tauto.
  - inversion Hx as [|? ? Ha Hx']; inversion Hy as [|? ? Hb Hy']; subst.
    simpl.
    assert (Hv' : is_byte (Z.lor v (Z.lxor a b)))
      by auto using lor_byte, lxor_byte.
    destruct (IH y (Z.lor v (Z.lxor a b)) (S n) ltac:(lia) Hx' Hy' Hv')
      as (Hs & Hbyte & Hz).
    split; [lia|]. split; [exact Hbyte|].
    rewrite Hz, Z.lor_eq_0_iff. split.
    + intros [[-> Hab] ->]. apply Z.lxor_eq in Hab. subst. auto.
    + intros [-> Heq]. injection Heq as -> ->.
      rewrite Z.lxor_nilpotent. auto.
Qed.

Lemma ConstantTimeCompare_spec (x y : list Z) :
  Forall is_byte x -> Forall is_byte y ->
  Subtle.ConstantTimeCompare x y
  = if decide (x = y) then (1, length x)
    else (0, if Nat.eqb (length x) (length y) then length x else O).
Proof.
  intros Hx Hy. unfold Subtle.ConstantTimeCompare.
  destruct (Nat.eqb_spec (length x) (length y)) as [Hlen|Hlen]; simpl.
  - assert (H0 : is_byte 0) by (unfold is_byte; lia).
    destruct (or_xor_spec x y 0 O Hlen Hx Hy H0) as (Hs & Hb & Hz).
    destruct (Subtle.or_xor 0 x y O) as [v steps]; simpl in *.
    rewrite ConstantTimeByteEq_zero by exact Hb. subst steps.
    destruct (decide (x = y)) as [Heq|Hne].
    + assert (v = 0) as -> by (apply Hz; auto). reflexivity.
    + destruct (Z.eqb_spec v 0) as [Hv|Hv]; [|reflexivity].
      exfalso. apply Hne. now apply Hz.
  - destruct (decide (x = y)) as [Heq|Hne]; [|reflexivity].
    subst. contradiction.
Qed.

(** ** net/url *)

Lemma QueryUnescape_QueryEscape_cons (c : ascii) (s : string) :
  NetURL.QueryUnescape (NetURL.QueryEscape (String c s))
  = String c <$> NetURL.QueryUnescape (NetURL.QueryEscape s).
Proof.
  destruct c as [[] [] [] [] [] [] [] []]; reflexivity.
Qed.

(** Unescaping undoes escaping, for every byte string. *)
Lemma QueryUnescape_QueryEscape (s : string) :
  NetURL.QueryUnescape (NetURL.QueryEscape s) = Some s.
Proof.
  induction s as [|c s IH]; [reflexivity|].
  rewrite QueryUnescape_QueryEscape_cons, IH. reflexivity.
Qed.

Lemma contains_QueryEscape_cons (x c : ascii) (s : string) :
  x = "&"%char \/ x = ";"%char \/ x = "="%char ->
  NetURL.contains x (NetURL.QueryEscape (String c s))
  = NetURL.contains x (NetURL.QueryEscape s).
Proof.
  intros [-> | [-> | ->]];
    destruct c as [[] [] [] [] [] [] [] []]; reflexivity.
Qed.

(** An escaped string has no separator of the query syntax left in it. *)
Lemma QueryEscape_no_separator (x : ascii) (s : string) :
  x = "&"%char \/ x = ";"%char \/ x = "="%char ->
  NetURL.contains x (NetURL.QueryEscape s) = false.
Proof.
  intros Hx. induction s as [|c s IH]; [reflexivity|].
  now rewrite contains_QueryEscape_cons.
Qed.

Lemma split_without_separator (sep : ascii) (s : string) :
  NetURL.contains sep s = false -> NetURL.split sep s = [s].
Proof.
  induction s as [|c s IH]; simpl; [reflexivity|].
  unfold NetURL.is_char. rewrite Ascii.eqb_sym.
  destruct (Ascii.eqb sep c); simpl; [discriminate|].
  intros H. now rewrite IH.
Qed.

(** The query [token=<escaped value>] parses to the single value. *)
Lemma ParseQuery_token (value : string) :
  NetURL.ParseQuery ("token=" +:+ NetURL.QueryEscape value)
  = {[ "token"%string := [value] ]}.
Proof.
  unfold NetURL.ParseQuery.
  rewrite split_without_separator.
  2:{ simpl. apply QueryEscape_no_separator. auto. }
  simpl fold_left. unfold NetURL.parsePair.
  replace (NetURL.contains ";" ("token=" +:+ NetURL.QueryEscape value))
    with false.
  2:{ symmetry. simpl. apply QueryEscape_no_separator. auto. }
  simpl.
  change ("" +:+ NetURL.QueryEscape value) with (NetURL.QueryEscape value).
  rewrite QueryUnescape_QueryEscape. reflexivity.
Qed.

Lemma Get_ParseQuery_token (value : string) :
  NetURL.Get (NetURL.ParseQuery ("token=" +:+ NetURL.QueryEscape value)) "token"
  = value.
Proof.
  rewrite ParseQuery_token. unfold NetURL.Get.
  now rewrite lookup_singleton_eq.
Qed.

(** ** Lookups *)

Lemma find_job_none (id : string) (l : list Job.t) :
  Forall (fun j => Job.ID j <> id) l ->
  List.find (fun j => String.eqb (Job.ID j) id) l = None.
Proof.
  induction 1 as [|j l Hj _ IH]; simpl; [reflexivity|].
  destruct (String.eqb_spec (Job.ID j) id); [contradiction|exact IH].
Qed.

Lemma find_role_none (id : string) (l : list Role.t) :
  Forall (fun r => Role.ID r <> id) l ->
  List.find (fun r => String.eqb (Role.ID r) id) l = None.
Proof.
  induction 1 as [|r l Hr _ IH]; simpl; [reflexivity|].
  destruct (String.eqb_spec (Role.ID r) id); [contradiction|exact IH].
Qed.

Lemma GetJob_found (id : string) (db : DB) (job : Job.t) :
  fault db = None ->
  List.find (fun j => String.eqb (Job.ID j) id) (jobs db) = Some job ->
  GetJob id db = (job, None) /\ Job.ID job = id.
Proof.
  intros Hf Hfind. unfold GetJob, Get_job. rewrite Hf, Hfind.
  split; [reflexivity|].
  apply find_some in Hfind as [_ H]. now apply String.eqb_eq.
Qed.

(** C10. Without a matching row in its own table, whatever the other
    table holds, [GetJob] (and likewise [GetRole]) returns the zero-valued
    record and a nil error although the backend reported [sql.ErrNoRows],
    while a row that is there comes back with the id asked for: so only the
    record's ID tells a caller that nothing was found.  Any other error of
    the backend is returned. *)
Theorem Get_swallows_no_rows (id : string) (db : DB) :
  (fault db = None ->
   (Forall (fun j => Job.ID j <> id) (jobs db) ->
    Get_job db id = (Job.zero, Some ErrNoRows)
    /\ GetJob id db = (Job.zero, None)
    /\ (id <> "" -> Job.ID (fst (GetJob id db)) <> id))
   /\ (Forall (fun r => Role.ID r <> id) (roles db) ->
       Get_role db id = (Role.zero, Some ErrNoRows)
       /\ GetRole id db = (Role.zero, None)
       /\ (id <> "" -> Role.ID (fst (GetRole id db)) <> id))
   /\ (forall job,
         List.find (fun j => String.eqb (Job.ID j) id) (jobs db) = Some job ->
         GetJob id db = (job, None) /\ Job.ID job = id)
   /\ (forall role,
         List.find (fun r => String.eqb (Role.ID r) id) (roles db) = Some role ->
         GetRole id db = (role, None) /\ Role.ID role = id))
  /\ (forall msg, fault db = Some msg ->
        snd (GetJob id db) = Some (ErrDriver msg)
        /\ snd (GetRole id db) = Some (ErrDriver msg)).
Proof.
  split.
  - intros Hf. unfold GetJob, GetRole, Get_job, Get_role. rewrite Hf.
    split; [|split; [|split]].
    + intros Hj. rewrite (find_job_none _ _ Hj). simpl. repeat split; auto.
    + intros Hr. rewrite (find_role_none _ _ Hr). simpl. repeat split; auto.
    + intros job Hfind. rewrite Hfind. split; [reflexivity|].
      apply find_some in Hfind as [_ H]. now apply String.eqb_eq.
    + intros role Hfind. rewrite Hfind. split; [reflexivity|].
      apply find_some in Hfind as [_ H]. now apply String.eqb_eq.
  - intros msg Hf. unfold GetJob, GetRole, Get_job, Get_role.
    rewrite Hf. simpl. auto.
Qed.

(** ** Go's string comparison *)

Lemma memequal_spec (x : string) :
  forall (y : string) (n : nat),
    String.length x = String.length y ->
    fst (GoString.memequal x y n) = true <-> x = y.
Proof.
  induction x as [|a x IH]; intros [|b y] n Hlen; simpl in Hlen; try discriminate.
  - simpl. tauto.
  - simpl. destruct (Ascii.eqb_spec a b) as [->|Hne].
    + rewrite IH by lia. split; [now intros ->|]. now intros [= ->].
    + simpl. split; [discriminate|]. intros [= ? ?]. contradiction.
Qed.

Lemma neq_spec (x y : string) : fst (GoString.neq x y) = true <-> x <> y.
Proof.
  unfold GoString.neq.
  destruct (Nat.eqb_spec (String.length x) (String.length y)) as [Hlen|Hlen]; simpl.
  - pose proof (memequal_spec x y O Hlen) as H.
    destruct (GoString.memequal x y O) as [[] n]; simpl in *.
    + split; [discriminate|]. intros Hne. exfalso. apply Hne. now apply H.
    + split; [|reflexivity]. intros _ Heq. apply H in Heq. discriminate.
  - split; [|reflexivity]. intros _ ->. contradiction.
Qed.

(** ** Saving a job *)

Lemma Job_Save_preserves_identities (job : Job.t) (db : DB) :
  map identity (jobs (fst (Job_Save job db))) = map identity (jobs db)
  /\ roles (fst (Job_Save job db)) = roles db.
Proof.
  unfold Job_Save. destruct (fault db); simpl; [auto|]. split; [|reflexivity].
  rewrite map_map. apply map_ext. intros row.
  destruct (String.eqb (Job.ID row) (Job.ID job)); reflexivity.
Qed.

(** ** Strings and flash messages *)

Lemma string_length_app (s t : string) :
  String.length (s +:+ t) = (String.length s + String.length t)%nat.
Proof.
  induction s as [|c s IH]; [reflexivity|].
  change (String c s +:+ t) with (String c (s +:+ t)).
  simpl. now rewrite IH.
Qed.

Lemma string_app_inj_r (x : string) :
  forall k1 k2 : string, k1 +:+ x = k2 +:+ x -> k1 = k2.
Proof.
  induction k1 as [|c k1 IH]; intros [|d k2] H.
  - reflexivity.
  - apply (f_equal String.length) in H.
    rewrite !string_length_app in H. simpl in H. lia.
  - apply (f_equal String.length) in H.
    rewrite !string_length_app in H. simpl in H. lia.
  - injection H as -> H. f_equal. now apply IH.
Qed.

(** Each validation message ends up under its own flash key, in whatever
    order the map is walked. *)
Lemma flashErrors_lookup (errs : gmap string string) (s : Session) (k : string) :
  flashErrors errs s !! (k +:+ "_err")
  = match errs !! k with
    | Some v => Some (default [] (s !! (k +:+ "_err")) ++ [v])
    | None => s !! (k +:+ "_err")
    end.
Proof.
  unfold flashErrors. revert k.
  apply (map_fold_weak_ind
           (fun (r : Session) (m : gmap string string) =>
              forall k, r !! (k +:+ "_err")
                        = match m !! k with
                          | Some v => Some (default [] (s !! (k +:+ "_err")) ++ [v])
                          | None => s !! (k +:+ "_err")
                          end)).
  - intros k. now rewrite lookup_empty.
  - intros i x m r Hi IH k. unfold AddFlash.
    destruct (decide (i = k)) as [->|Hne].
    + rewrite !lookup_insert_eq. specialize (IH k). rewrite Hi in IH.
      now rewrite IH.
    + rewrite !lookup_insert_ne; [apply IH|exact Hne|].
      intros H. apply Hne. now apply string_app_inj_r in H.
Qed.

(** ** The retention sweep *)

(** C9, as the code has it: a pass that the backend carries out deletes
    exactly the jobs published more than thirty days before [now], keeps
    the other jobs, and keeps every role, however old. *)
Theorem sweepPass_deletes_expired_jobs_only (now : Time) (db : DB) :
  fault db = None ->
  snd (sweepPass now db) = None
  /\ (forall j, In j (jobs (fst (sweepPass now db)))
                <-> In j (jobs db) /\ ~ Job.PublishedAt j < now - 30 * 86400 * 1000000)
  /\ roles (fst (sweepPass now db)) = roles db.
Proof.
  intros Hf. unfold sweepPass. rewrite Hf. simpl.
  split; [reflexivity|]. split; [|reflexivity].
  intros j. rewrite filter_In. unfold expired, retention.
  destruct (Z.ltb_spec (Job.PublishedAt j) (now - 30 * 86400 * 1000000))
    as [Hold|Hnew]; simpl.
  - split; [intros [_ Hc]; discriminate|]. intros [_ Hc]. contradiction.
  - split; [intros [Hin _]; split; [exact Hin|lia]|]. intros [Hin _]. auto.
Qed.

(** A pass that fails changes nothing, and the loop never touches a role. *)
Lemma sweepPass_failure (now : Time) (db : DB) (msg : string) :
  fault db = Some msg -> sweepPass now db = (db, Some (ErrDriver msg)).
Proof. intros Hf. unfold sweepPass. now rewrite Hf. Qed.

Lemma sweeper_keeps_roles (wakeups : list Time) :
  forall db, roles (sweeper wakeups db) = roles db.
Proof.
  unfold sweeper. induction wakeups as [|now ws IH]; intros db; simpl; [reflexivity|].
  rewrite IH. unfold sweepPass. destruct (fault db); reflexivity.
Qed.

(** ** encoding/base64 is injective on bytes *)

Lemma lor_shiftl_add (hi lo n : Z) :
  0 <= n -> 0 <= hi -> 0 <= lo < 2 ^ n ->
  Z.lor (Z.shiftl hi n) lo = hi * 2 ^ n + lo.
Proof.
  intros Hn Hhi Hlo.
  assert (Hland : Z.land (Z.shiftl hi n) lo = 0).
  { apply Z.bits_inj'. intros m Hm. rewrite Z.land_spec, Z.bits_0.
    destruct (Z.lt_ge_cases m n) as [Hlt|Hge].
    - now rewrite Z.shiftl_spec_low.
    - destruct (Z.eq_dec lo 0) as [->|Hz]; [now rewrite Z.bits_0, andb_false_r|].
      rewrite (Z.bits_above_log2 lo m), andb_false_r; [reflexivity|lia|].
      assert (Z.log2 lo < n) by (apply Z.log2_lt_pow2; lia). lia. }
  rewrite <- Z.lxor_lor, <- Z.add_nocarry_lxor by exact Hland.
  now rewrite Z.shiftl_mul_pow2.
Qed.

Lemma triple_value (a b c : Z) :
  is_byte a -> is_byte b -> is_byte c ->
  Z.lor (Z.shiftl a 16) (Z.lor (Z.shiftl b 8) c) = a * 65536 + b * 256 + c.
Proof.
  unfold is_byte. intros Ha Hb Hc.
  rewrite (lor_shiftl_add b c 8) by (simpl; lia).
  rewrite (lor_shiftl_add a _ 16) by (simpl; lia).
  change (2 ^ 16) with 65536. change (2 ^ 8) with 256. lia.
Qed.

Lemma pair_value (a b : Z) :
  is_byte a -> is_byte b ->
  Z.lor (Z.shiftl a 16) (Z.shiftl b 8) = a * 65536 + b * 256.
Proof.
  unfold is_byte. intros Ha Hb.
  rewrite (Z.shiftl_mul_pow2 b 8) by lia.
  rewrite (lor_shiftl_add a _ 16) by (simpl; lia).
  change (2 ^ 16) with 65536. change (2 ^ 8) with 256. lia.
Qed.

Lemma sextet_value (val shift : Z) :
  0 <= shift ->
  Base64.sextet val shift = Base64.enc ((val / 2 ^ shift) mod 64).
Proof.
  intros Hs. unfold Base64.sextet.
  rewrite Z.shiftr_div_pow2 by exact Hs.
  change 63 with (Z.ones 6). rewrite Z.land_ones by lia. reflexivity.
Qed.

Lemma enc_index (v : Z) :
  0 <= v < 64 ->
  index_of (Base64.enc v) Base64.encodeURL = v /\ Base64.enc v <> "="%char.
Proof.
  intros Hv. rewrite <- (Z2Nat.id v) by lia.
  assert (Hn : (Z.to_nat v < 64)%nat) by lia.
  generalize dependent (Z.to_nat v). clear v Hv. intros n Hn.
  do 64 (destruct n as [|n]; [split; [reflexivity|discriminate]|]). lia.
Qed.

Lemma enc_inj (u v : Z) :
  0 <= u < 64 -> 0 <= v < 64 -> Base64.enc u = Base64.enc v -> u = v.
Proof.
  intros Hu Hv H.
  rewrite <- (proj1 (enc_index u Hu)), <- (proj1 (enc_index v Hv)). now rewrite H.
Qed.

Lemma sextet_inj (x y shift : Z) :
  0 <= shift ->
  Base64.sextet x shift = Base64.sextet y shift ->
  (x / 2 ^ shift) mod 64 = (y / 2 ^ shift) mod 64.
Proof.
  intros Hs. rewrite !sextet_value by exact Hs.
  apply enc_inj; apply Z.mod_pos_bound; lia.
Qed.

Lemma sextet_not_pad (x shift : Z) :
  0 <= shift -> Base64.sextet x shift <> "="%char.
Proof.
  intros Hs. rewrite sextet_value by exact Hs.
  apply enc_index. apply Z.mod_pos_bound. lia.
Qed.

Lemma list_ind3 {A : Type} (P : list A -> Prop) :
  P [] -> (forall a, P [a]) -> (forall a b, P [a; b]) ->
  (forall a b c l, P l -> P (a :: b :: c :: l)) ->
  forall l, P l.
Proof.
  intros H0 H1 H2 H3 l.
  assert (H : P l /\ (forall a, P (a :: l)) /\ (forall a b, P (a :: b :: l))).
  { induction l as [|x l (IH0 & IH1 & IH2)]; [auto|].
    split; [apply IH1|]. split; [intros a; apply IH2|].
    intros a b. apply H3. exact IH0. }
  apply H.
Qed.

Ltac sextets H :=
  repeat match type of H with
         | String _ _ = String _ _ =>
             let Hc := fresh "Hc" in injection H as Hc H
         end.

Ltac sextet_values :=
  repeat match goal with
         | Hc : Base64.sextet _ _ = Base64.sextet _ _ |- _ =>
             apply sextet_inj in Hc; [|lia]
         end;
  change (2 ^ 18) with 262144 in *; change (2 ^ 12) with 4096 in *;
  change (2 ^ 6) with 64 in *; change (2 ^ 0) with 1 in *.

(** [EncodeToString] loses nothing of a byte slice. *)
Lemma EncodeToString_inj (l1 : list Z) :
  forall l2 : list Z,
    Forall is_byte l1 -> Forall is_byte l2 ->
    Base64.EncodeToString l1 = Base64.EncodeToString l2 -> l1 = l2.
Proof.
  induction l1 as [|a|a b|a b c l1 IH] using list_ind3;
    intros [|a' [|b' [|c' l2]]] F1 F2 H;
    repeat match goal with
           | F : Forall is_byte (_ :: _) |- _ =>
               let Hb := fresh "Hb" in
               let F' := fresh "F" in
               apply Forall_cons_1 in F as [Hb F']
           end;
    simpl in H; try discriminate H; try reflexivity; sextets H;
    repeat match goal with
           | Hc : "="%char = Base64.sextet _ _ |- _ =>
               symmetry in Hc; apply sextet_not_pad in Hc; [contradiction|lia]
           | Hc : Base64.sextet _ _ = "="%char |- _ =>
               apply sextet_not_pad in Hc; [contradiction|lia]
           end.
  - (* one byte against one byte *)
    sextet_values. rewrite !Z.shiftl_mul_pow2 in * by lia.
    change (2 ^ 16) with 65536 in *. unfold is_byte in *. f_equal.
    Z.div_mod_to_equations. lia.
  - (* two bytes against two bytes *)
    sextet_values. rewrite !pair_value in * by assumption.
    unfold is_byte in *.
    assert (a = a' /\ b = b') as [-> ->]; [|reflexivity].
    Z.div_mod_to_equations. lia.
  - (* a full group against a full group *)
    sextet_values. rewrite !triple_value in * by assumption.
    unfold is_byte in *.
    assert (a = a' /\ b = b' /\ c = c') as (-> & -> & ->).
    { Z.div_mod_to_equations. lia. }
    f_equal. f_equal. f_equal. now apply IH.
Qed.

(** ** Digests are byte slices *)

Lemma be_bytes_are_bytes (n : nat) (x : Z) : Forall is_byte (SHA256.be_bytes n x).
Proof.
  induction n as [|n IH]; simpl; constructor; [|exact IH].
  unfold is_byte. change 255 with (Z.ones 8). rewrite Z.land_ones by lia.
  apply Z.mod_pos_bound. reflexivity.
Qed.

Lemma Sum256_bytes (msg : list Z) : Forall is_byte (SHA256.Sum256 msg).
Proof.
  unfold SHA256.Sum256.
  induction (SHA256.blocks _ _ _) as [|w ws IH]; [constructor|].
  change (flat_map (SHA256.be_bytes 4) (w :: ws))
    with (SHA256.be_bytes 4 w ++ flat_map (SHA256.be_bytes 4) ws).
  apply Forall_app. split; [apply be_bytes_are_bytes|exact IH].
Qed.

Lemma SumSHA256_bytes (key msg : list Z) : Forall is_byte (HMAC.SumSHA256 key msg).
Proof. apply Sum256_bytes. Qed.

(** ** Delimited strings *)

(** An id without [":"] is what precedes the first [":"] of a string that
    starts with the id and a [":"]. *)
Lemma cut_id (id rest : string) :
  NetURL.contains ":" id = false ->
  NetURL.cut ":" (id +:+ ":" +:+ rest) = (id, rest).
Proof.
  induction id as [|c id IH]; [reflexivity|].
  change (String c id +:+ ":" +:+ rest) with (String c (id +:+ ":" +:+ rest)).
  simpl. destruct (NetURL.is_char c ":"); simpl; [discriminate|].
  intros H. now rewrite IH.
Qed.

Section Properties.

Variable Time_String : Time -> string.
Variable ParseRequestURI_ok : string -> bool.
Variable ParseAddress_ok : string -> bool.
Variable signatureForJob : Job.t -> string -> string.

Local Set Default Proof Using "Type".

Local Abbreviation Job_input := (Job_input Time_String).
Local Abbreviation Job_AuthSignature := (Job_AuthSignature Time_String).
Local Abbreviation Role_input := (Role_input Time_String).
Local Abbreviation Role_AuthSignature := (Role_AuthSignature Time_String).
Local Abbreviation AuthSignature := (AuthSignature Time_String).
Local Abbreviation input := (input Time_String).
Local Abbreviation spec_sign := (spec_sign Time_String).
Local Abbreviation SignedJobRoute := (SignedJobRoute Time_String).
Local Abbreviation SignedRoleRoute := (SignedRoleRoute Time_String).
Local Abbreviation requireTokenAuth := (requireTokenAuth Time_String).
Local Abbreviation requireAuth := (requireAuth signatureForJob).
Local Abbreviation NewJob_Validate :=
  (NewJob_Validate ParseRequestURI_ok ParseAddress_ok).
Local Abbreviation UpdateJob := (UpdateJob ParseRequestURI_ok ParseAddress_ok).
Local Abbreviation POST_jobs_id :=
  (POST_jobs_id Time_String ParseRequestURI_ok ParseAddress_ok).

(** ** The token middleware *)

Lemma GetJob_stored (db : DB) (job : Job.t) :
stored db (AJob job) -> GetJob (Job.ID job) db = (job, None).
Proof. simpl. unfold GetJob. now intros ->. Qed.

Lemma GetRole_stored (db : DB) (role : Role.t) :
stored db (ARole role) -> GetRole (Role.ID role) db = (role, None).
Proof. simpl. unfold GetRole. now intros ->. Qed.

(** The comparison accepts the expected signature and nothing else, and
  the bytes it examines depend on the two lengths only. *)
Lemma compareToken_spec (expected : string) (ctx : Context) :
compareToken (GoBytes.of_string expected) ctx
= mkAuth (if decide (Query ctx "token" = expected) then Next else Abort 403)
         (if Nat.eqb (String.length expected) (String.length (Query ctx "token"))
          then String.length expected else O).
Proof.
unfold compareToken.
rewrite ConstantTimeCompare_spec by apply of_string_bytes.
rewrite !of_string_length.
destruct (decide (GoBytes.of_string expected = GoBytes.of_string (Query ctx "token")))
  as [Heq|Hne].
- apply of_string_inj in Heq. rewrite <- Heq.
  rewrite Nat.eqb_refl. simpl.
  destruct (decide (expected = expected)); [reflexivity|contradiction].
- simpl. destruct (decide (Query ctx "token" = expected)) as [Heq|_]; [|reflexivity].
  exfalso. apply Hne. now rewrite Heq.
Qed.

(** For a stored listing the middleware comes down to the comparison
  with the listing's own signature. *)
Lemma requireTokenAuth_stored (db : DB) (secret : string) (r : Listing) (ctx : Context) :
stored db r -> Param_id ctx = listing_ID r ->
requireTokenAuth db secret (authType r) ctx
= compareToken (GoBytes.of_string (AuthSignature r secret)) ctx.
Proof.
intros Hst Hid. unfold requireTokenAuth.
destruct r as [job|role]; simpl in Hid; simpl authType.
- change (String.eqb JobRoute JobRoute) with true. cbv iota.
  rewrite Hid, (GetJob_stored _ _ Hst), String.eqb_refl. reflexivity.
- change (String.eqb RoleRoute JobRoute) with false.
  change (String.eqb RoleRoute RoleRoute) with true. cbv iota.
  rewrite Hid, (GetRole_stored _ _ Hst), String.eqb_refl. reflexivity.
Qed.

(** [verify(r, s, sign(r, s))] holds for listings of both kinds. *)
Lemma own_signature_passes (db : DB) (secret : string) (r : Listing) (ctx : Context) :
stored db r -> Param_id ctx = listing_ID r ->
Query ctx "token" = AuthSignature r secret ->
outcome (requireTokenAuth db secret (authType r) ctx) = Next.
Proof.
intros Hst Hid Htok.
rewrite requireTokenAuth_stored, compareToken_spec by assumption.
simpl. destruct (decide _); [reflexivity|contradiction].
Qed.

(** C1. The edit link built by [SignedJobRoute] for a stored job carries,
  in its query, a token that decodes to the job's own signature, and the
  request for that link passes [requireTokenAuth]. *)
Theorem signed_job_route_passes_token_check
  (db : DB) (job : Job.t) (c : Config.t) (form : option NewJob.t) (flashes : Session) :
stored db (AJob job) ->
let ctx :=
  mkContext (Job.ID job)
    ("token=" +:+ NetURL.QueryEscape (Job_AuthSignature job (Config.AppSecret c)))
    form flashes in
SignedJobRoute job c
= Config.URL c +:+ "/jobs/" +:+ Param_id ctx +:+ "/edit?" +:+ RawQuery ctx
/\ NetURL.QueryUnescape (NetURL.QueryEscape (Job_AuthSignature job (Config.AppSecret c)))
   = Some (Job_AuthSignature job (Config.AppSecret c))
/\ Query ctx "token" = Job_AuthSignature job (Config.AppSecret c)
/\ outcome (requireTokenAuth db (Config.AppSecret c) JobRoute ctx) = Next.
Proof.
intros Hst ctx.
assert (Htok : Query ctx "token" = Job_AuthSignature job (Config.AppSecret c))
  by apply Get_ParseQuery_token.
split; [reflexivity|]. split; [apply QueryUnescape_QueryEscape|].
split; [exact Htok|].
exact (own_signature_passes db (Config.AppSecret c) (AJob job) ctx Hst eq_refl Htok).
Qed.

(** X21. The edit link built by [SignedRoleRoute] for a stored role carries,
  in its query, a token that decodes to the role's own signature, and the
  request for that link passes [requireTokenAuth]. *)
Lemma signed_role_route_passes_token_check
  (db : DB) (role : Role.t) (c : Config.t) (form : option NewJob.t) (flashes : Session) :
stored db (ARole role) ->
let ctx :=
  mkContext (Role.ID role)
    ("token=" +:+ NetURL.QueryEscape (Role_AuthSignature role (Config.AppSecret c)))
    form flashes in
SignedRoleRoute role c
= Config.URL c +:+ "/roles/" +:+ Param_id ctx +:+ "/edit?" +:+ RawQuery ctx
/\ outcome (requireTokenAuth db (Config.AppSecret c) RoleRoute ctx) = Next.
Proof.
intros Hst ctx. split; [reflexivity|].
apply (own_signature_passes db (Config.AppSecret c) (ARole role) ctx Hst eq_refl).
apply Get_ParseQuery_token.
Qed.

(** C2. For a stored listing of either kind, a request whose token is not
  the listing's signature is aborted with status 403. *)
Theorem wrong_token_is_forbidden
  (db : DB) (secret : string) (r : Listing) (ctx : Context) :
stored db r -> Param_id ctx = listing_ID r ->
Query ctx "token" <> AuthSignature r secret ->
outcome (requireTokenAuth db secret (authType r) ctx) = Abort 403.
Proof.
intros Hst Hid Htok.
rewrite requireTokenAuth_stored, compareToken_spec by assumption.
simpl. destruct (decide _); [contradiction|reflexivity].
Qed.

(** X22. Only the signature is accepted: a request for a stored listing
  that passes [requireTokenAuth] carries that listing's signature as its
  token. *)
Lemma accepted_token_is_signature
  (db : DB) (secret : string) (r : Listing) (ctx : Context) :
stored db r -> Param_id ctx = listing_ID r ->
outcome (requireTokenAuth db secret (authType r) ctx) = Next ->
Query ctx "token" = AuthSignature r secret.
Proof.
intros Hst Hid. rewrite requireTokenAuth_stored, compareToken_spec by assumption.
simpl. destruct (decide _); [auto|discriminate].
Qed.

(** X23. The work of the comparison in [requireTokenAuth] is the same for
  any two requests for one id whose tokens have the same length. *)
Lemma requireTokenAuth_steps_by_length
  (db : DB) (secret kind : string) (ctx1 ctx2 : Context) :
Param_id ctx1 = Param_id ctx2 ->
String.length (Query ctx1 "token") = String.length (Query ctx2 "token") ->
cmp_steps (requireTokenAuth db secret kind ctx1)
= cmp_steps (requireTokenAuth db secret kind ctx2).
Proof.
intros Hid Hlen. unfold requireTokenAuth. rewrite Hid.
destruct (String.eqb kind JobRoute).
- destruct (GetJob (Param_id ctx2) db) as [job [e|]]; [reflexivity|].
  destruct (negb _); [reflexivity|].
  rewrite !compareToken_spec. simpl. now rewrite Hlen.
- destruct (String.eqb kind RoleRoute); [|reflexivity].
  destruct (GetRole (Param_id ctx2) db) as [role [e|]]; [reflexivity|].
  destruct (negb _); [reflexivity|].
  rewrite !compareToken_spec. simpl. now rewrite Hlen.
Qed.

(** X24. In [requireTokenAuth] an id without a row is answered with 404
  before any comparison takes place. *)
Lemma requireTokenAuth_unknown_id (db : DB) (secret : string) (ctx : Context) :
fault db = None -> Param_id ctx <> "" ->
(Forall (fun j => Job.ID j <> Param_id ctx) (jobs db) ->
 requireTokenAuth db secret JobRoute ctx = mkAuth (Abort 404) O)
/\ (Forall (fun r => Role.ID r <> Param_id ctx) (roles db) ->
    requireTokenAuth db secret RoleRoute ctx = mkAuth (Abort 404) O).
Proof.
intros Hf Hid. split; intros Hrows; unfold requireTokenAuth.
- change (String.eqb JobRoute JobRoute) with true. cbv iota.
  unfold GetJob, Get_job. rewrite Hf, (find_job_none _ _ Hrows). simpl.
  destruct (Param_id ctx); [congruence|reflexivity].
- change (String.eqb RoleRoute JobRoute) with false.
  change (String.eqb RoleRoute RoleRoute) with true. cbv iota.
  unfold GetRole, Get_role. rewrite Hf, (find_role_none _ _ Hrows). simpl.
  destruct (Param_id ctx); [congruence|reflexivity].
Qed.

(** A backend failure is answered with 500. *)
Lemma requireTokenAuth_storage_failure
  (db : DB) (secret : string) (ctx : Context) (msg : string) :
fault db = Some msg ->
outcome (requireTokenAuth db secret JobRoute ctx) = Abort 500
/\ outcome (requireTokenAuth db secret RoleRoute ctx) = Abort 500.
Proof.
intros Hf. unfold requireTokenAuth, GetJob, GetRole, Get_job, Get_role.
rewrite Hf. split; reflexivity.
Qed.

(** ** The first [requireAuth] *)

(** [requireAuth] has no 404: every request is answered with 500, with 403,
  or let through. *)
Lemma requireAuth_never_404 (db : DB) (secret : string) (ctx : Context) :
outcome (requireAuth db secret ctx) <> Abort 404.
Proof.
unfold requireAuth.
destruct (GetJob (Param_id ctx) db) as [job [e|]]; [discriminate|].
destruct (GoString.neq _ _) as [[] n]; discriminate.
Qed.

(** For an id without a row it compares the token with the signature of
  the zero-valued job. *)
Lemma requireAuth_unknown_id (db : DB) (secret : string) (ctx : Context) :
fault db = None ->
Forall (fun j => Job.ID j <> Param_id ctx) (jobs db) ->
outcome (requireAuth db secret ctx)
= if decide (Query ctx "token" = signatureForJob Job.zero secret)
  then Next else Abort 403.
Proof.
intros Hf Hrows. unfold requireAuth, GetJob, Get_job.
rewrite Hf, (find_job_none _ _ Hrows). simpl.
pose proof (neq_spec (Query ctx "token") (signatureForJob Job.zero secret)) as H.
destruct (GoString.neq _ _) as [[] n]; simpl in *.
- destruct (decide _) as [Heq|]; [|reflexivity].
  exfalso. now apply (proj1 H).
- destruct (decide _) as [|Hne]; [reflexivity|].
  apply H in Hne. discriminate.
Qed.

(** ** Signatures *)

(** C5, as the code has it: the signature is the URL-safe base64 of the
  HMAC-SHA256, keyed by the secret, of the fields id, email and
  stringified publishedAt joined by [":"]; for a role the secret itself is
  joined on as a fourth field. *)
Theorem AuthSignature_is_hmac_of_joined_fields (r : Listing) (secret : string) :
AuthSignature r secret
= Base64.EncodeToString
    (HMAC.SumSHA256 (GoBytes.of_string secret)
       (GoBytes.of_string
          (String.concat ":"
             ([listing_ID r; listing_Email r; Time_String (listing_PublishedAt r)]
              ++ match r with AJob _ => [] | ARole _ => [secret] end)))).
Proof. destruct r as [job|role]; reflexivity. Qed.

(** For a job this is the signature of the specification. *)
Lemma Job_AuthSignature_is_spec_sign (job : Job.t) (secret : string) :
Job_AuthSignature job secret = spec_sign (AJob job) secret.
Proof. reflexivity. Qed.

(** C6. [Update] leaves ID, Email and PublishedAt of a job and of a role
  as they were, whatever the submitted payload, and with them the
  signature under every secret. *)
Theorem Update_preserves_identity_and_signature
  (job : Job.t) (newJob : NewJob.t) (role : Role.t) (newRole : NewRole.t)
  (secret : string) :
(Job.ID (Job_Update job newJob) = Job.ID job
 /\ Job.Email (Job_Update job newJob) = Job.Email job
 /\ Job.PublishedAt (Job_Update job newJob) = Job.PublishedAt job
 /\ Job_AuthSignature (Job_Update job newJob) secret = Job_AuthSignature job secret)
/\ (Role.ID (Role_Update role newRole) = Role.ID role
    /\ Role.Email (Role_Update role newRole) = Role.Email role
    /\ Role.PublishedAt (Role_Update role newRole) = Role.PublishedAt role
    /\ Role_AuthSignature (Role_Update role newRole) secret
       = Role_AuthSignature role secret).
Proof. repeat split. Qed.

(** The mutable fields are the ones the payload carries. *)
Lemma Job_Update_sets_display_fields (job : Job.t) (newJob : NewJob.t) :
Job.Position (Job_Update job newJob) = NewJob.Position newJob
/\ Job.Organization (Job_Update job newJob) = NewJob.Organization newJob
/\ NullString.String (Job.Url (Job_Update job newJob)) = NewJob.Url newJob
/\ NullString.String (Job.Description (Job_Update job newJob))
   = NewJob.Description newJob.
Proof. repeat split. Qed.

(** X25. Whatever [UpdateJob] is sent, no stored job changes its id, email
  or timestamp, hence none changes its signature. *)
Lemma UpdateJob_preserves_identities (db : DB) (ctx : Context) :
map identity (jobs (store (UpdateJob db ctx))) = map identity (jobs db).
Proof.
unfold UpdateJob. destruct (Form ctx) as [newJob|]; [|reflexivity].
destruct (negb _); [reflexivity|].
destruct (GetJob (Param_id ctx) db) as [job [e|]]; [reflexivity|].
pose proof (Job_Save_preserves_identities (Job_Update job newJob) db) as [H _].
destruct (Job_Save (Job_Update job newJob) db) as [db' [e|]]; exact H.
Qed.

(** ** Validation and [UpdateJob] *)

Lemma Validate_both_empty (newJob : NewJob.t) (update : bool) :
NewJob.Url newJob = "" -> NewJob.Description newJob = "" ->
NewJob_Validate newJob update !! "url" = Some ErrNoUrlOrDescription.
Proof.
intros Hu Hd. unfold NewJob_Validate. rewrite Hu, Hd. simpl.
destruct (negb update).
- destruct (String.eqb (NewJob.Email newJob) "");
    [|destruct (ParseAddress_ok (NewJob.Email newJob))];
    rewrite ?lookup_insert_ne by discriminate; apply lookup_insert_eq.
- apply lookup_insert_eq.
Qed.

(** A payload that fails validation is answered with a redirect to the
  edit form; the store is not touched. *)
Lemma UpdateJob_validation_failure (db : DB) (ctx : Context) (newJob : NewJob.t) :
Form ctx = Some newJob ->
NewJob_Validate newJob true <> ∅ ->
UpdateJob db ctx
= mkHandled
    (Redirect 302 ("/jobs/" +:+ Param_id ctx +:+ "/edit?token=" +:+ Query ctx "token"))
    (flashErrors (NewJob_Validate newJob true) (Flashes ctx)) db.
Proof.
intros Hform Herrs. unfold UpdateJob. rewrite Hform.
apply map_size_non_empty_iff in Herrs.
destruct (Nat.eqb_spec (size (NewJob_Validate newJob true)) 0); [contradiction|].
reflexivity.
Qed.

(** C8. An authorized update whose url and description are both empty
  fails validation with "Must provide either a Url or a Description", is
  answered with a 302 redirect to the edit form with that message flashed
  under [url_err], and leaves the store as it was. *)
Theorem update_without_url_and_description_is_rejected
  (c : Config.t) (db : DB) (ctx : Context) (newJob : NewJob.t) :
outcome (requireTokenAuth db (Config.AppSecret c) JobRoute ctx) = Next ->
Form ctx = Some newJob ->
NewJob.Url newJob = "" -> NewJob.Description newJob = "" ->
NewJob_Validate newJob true !! "url" = Some ErrNoUrlOrDescription
/\ response (POST_jobs_id c db ctx)
   = Redirect 302 ("/jobs/" +:+ Param_id ctx +:+ "/edit?token=" +:+ Query ctx "token")
/\ session (POST_jobs_id c db ctx) !! "url_err"
   = Some (default [] (Flashes ctx !! "url_err") ++ [ErrNoUrlOrDescription])
/\ store (POST_jobs_id c db ctx) = db.
Proof.
intros Hauth Hform Hu Hd.
pose proof (Validate_both_empty newJob true Hu Hd) as Hurl.
assert (Hne : NewJob_Validate newJob true <> ∅).
{ intros He. rewrite He, lookup_empty in Hurl. discriminate. }
unfold POST_jobs_id. rewrite Hauth.
rewrite (UpdateJob_validation_failure db ctx newJob Hform Hne). simpl.
repeat split; auto.
change "url_err"%string with ("url" +:+ "_err").
now rewrite flashErrors_lookup, Hurl.
Qed.

(** ** The signed string and the ids *)

Lemma AuthSignature_input (r : Listing) (secret : string) :
AuthSignature r secret
= Base64.EncodeToString
    (HMAC.SumSHA256 (GoBytes.of_string secret) (GoBytes.of_string (input r secret))).
Proof. destruct r; reflexivity. Qed.

(** Two listings with one signature have signed strings with one HMAC. *)
Lemma equal_signatures_equal_digests (r1 r2 : Listing) (secret : string) :
AuthSignature r1 secret = AuthSignature r2 secret ->
HMAC.SumSHA256 (GoBytes.of_string secret) (GoBytes.of_string (input r1 secret))
= HMAC.SumSHA256 (GoBytes.of_string secret) (GoBytes.of_string (input r2 secret)).
Proof.
rewrite !AuthSignature_input.
apply EncodeToString_inj; apply SumSHA256_bytes.
Qed.

Lemma input_starts_with_id (r : Listing) (secret : string) :
NetURL.contains ":" (listing_ID r) = false ->
fst (NetURL.cut ":" (input r secret)) = listing_ID r.
Proof.
intros H. destruct r as [job|role]; simpl in *.
- unfold Job_input. now rewrite cut_id.
- unfold Role_input. now rewrite cut_id.
Qed.

(** Two listings, of one kind or of two, whose ids differ and hold no
  [":"] are signed over different strings, so that equal signatures under
  one secret would be a collision of the HMAC. *)
Lemma distinct_plain_ids_give_distinct_inputs (r1 r2 : Listing) (secret : string) :
NetURL.contains ":" (listing_ID r1) = false ->
NetURL.contains ":" (listing_ID r2) = false ->
listing_ID r1 <> listing_ID r2 ->
input r1 secret <> input r2 secret
/\ (AuthSignature r1 secret = AuthSignature r2 secret ->
    GoBytes.of_string (input r1 secret) <> GoBytes.of_string (input r2 secret)
    /\ HMAC.SumSHA256 (GoBytes.of_string secret) (GoBytes.of_string (input r1 secret))
       = HMAC.SumSHA256 (GoBytes.of_string secret)
           (GoBytes.of_string (input r2 secret))).
Proof.
intros H1 H2 Hne.
assert (Hin : input r1 secret <> input r2 secret).
{ intros Heq. apply Hne.
  rewrite <- (input_starts_with_id r1 secret H1),
          <- (input_starts_with_id r2 secret H2).
  now rewrite Heq. }
split; [exact Hin|]. intros Hsig. split.
- intros Hb. apply Hin. now apply of_string_inj.
- now apply equal_signatures_equal_digests.
Qed.

End Properties.

(** * Properties of the further code *)

(** ** Validation *)

Lemma insert_if_empty (b : bool) (k v : string) (m : gmap string string) :
  (if b then <[k := v]> m else m) = ∅ <-> b = false /\ m = ∅.
Proof.
  destruct b.
  - split; [intros H; now apply insert_non_empty in H|intros [H _]; discriminate].
  - tauto.
Qed.

Lemma eqb_empty_false (s : string) : String.eqb s "" = false <-> s <> ""%string.
Proof. apply String.eqb_neq. Qed.

Section ValidationProperties.

Variable ParseRequestURI_ok : string -> bool.
Variable ParseAddress_ok : string -> bool.

Local Set Default Proof Using "Type".

Local Abbreviation NewJob_Validate :=
  (NewJob_Validate ParseRequestURI_ok ParseAddress_ok).
Local Abbreviation NewRole_Validate :=
  (NewRole_Validate ParseRequestURI_ok ParseAddress_ok).

(** X1. [NewJob.Validate] reports nothing exactly for a payload with a
    position, an organization, and a description or else a url that parses;
    on creation the email must be there and parse as well.  With a
    description the url is not looked at. *)
Theorem NewJob_Validate_accepts (newJob : NewJob.t) (update : bool) :
  NewJob_Validate newJob update = ∅
  <-> NewJob.Position newJob <> ""%string
      /\ NewJob.Organization newJob <> ""%string
      /\ (NewJob.Description newJob <> ""%string
          \/ NewJob.Url newJob <> ""%string
             /\ ParseRequestURI_ok (NewJob.Url newJob) = true)
      /\ (update = true
          \/ NewJob.Email newJob <> ""%string
             /\ ParseAddress_ok (NewJob.Email newJob) = true).
Proof.
  unfold NewJob_Validate.
  rewrite <- !eqb_empty_false.
  destruct (String.eqb (NewJob.Position newJob) ""),
           (String.eqb (NewJob.Organization newJob) ""),
           (String.eqb (NewJob.Url newJob) ""),
           (String.eqb (NewJob.Description newJob) ""),
           (ParseRequestURI_ok (NewJob.Url newJob)),
           update,
           (String.eqb (NewJob.Email newJob) ""),
           (ParseAddress_ok (NewJob.Email newJob));
    simpl;
    (split;
     [ intros H; try (now apply insert_non_empty in H); intuition congruence
     | intros H; try reflexivity; exfalso; intuition congruence ]).
Qed.

(** X2. [NewRole.Validate] reports nothing exactly for a payload with a
    name, a role and a resume whose linkedin, website and github are each
    empty or parse; on creation the email must be there and parse as well.
    Phone and compensation are never looked at. *)
Theorem NewRole_Validate_accepts (newRole : NewRole.t) (update : bool) :
  NewRole_Validate newRole update = ∅
  <-> NewRole.Name newRole <> ""%string
      /\ NewRole.Role newRole <> ""%string
      /\ NewRole.Resume newRole <> ""%string
      /\ (update = true
          \/ NewRole.Email newRole <> ""%string
             /\ ParseAddress_ok (NewRole.Email newRole) = true)
      /\ (NewRole.Linkedin newRole = ""%string
          \/ ParseRequestURI_ok (NewRole.Linkedin newRole) = true)
      /\ (NewRole.Website newRole = ""%string
          \/ ParseRequestURI_ok (NewRole.Website newRole) = true)
      /\ (NewRole.Github newRole = ""%string
          \/ ParseRequestURI_ok (NewRole.Github newRole) = true).
Proof.
  assert (Hcheck : forall (field value : string) (m : gmap string string),
             (if nonempty value
              then if ParseRequestURI_ok value then m else <[field := ErrInvalidUrl]> m
              else m) = ∅
             <-> (value = ""%string \/ ParseRequestURI_ok value = true) /\ m = ∅).
  { intros field value m. unfold nonempty.
    destruct (String.eqb_spec value ""); simpl.
    - tauto.
    - destruct (ParseRequestURI_ok value).
      + tauto.
      + split; [intros H; now apply insert_non_empty in H|].
        intros [[?|?] _]; [contradiction|discriminate]. }
  assert (Hmail : forall (m : gmap string string),
             (if negb update
              then if String.eqb (NewRole.Email newRole) ""
                   then <["email" := ErrNoEmail]> m
                   else if ParseAddress_ok (NewRole.Email newRole) then m
                        else <["email" := ErrInvalidEmail]> m
              else m) = ∅
             <-> (update = true
                  \/ NewRole.Email newRole <> ""%string
                     /\ ParseAddress_ok (NewRole.Email newRole) = true)
                 /\ m = ∅).
  { intros m. rewrite <- eqb_empty_false.
    destruct update, (String.eqb (NewRole.Email newRole) ""),
             (ParseAddress_ok (NewRole.Email newRole)); simpl;
      (split;
       [ intros H; try (now apply insert_non_empty in H); intuition congruence
       | intros H; try tauto; exfalso; intuition congruence ]). }
  unfold NewRole_Validate. cbv zeta.
  rewrite !Hcheck, !insert_if_empty, Hmail, insert_if_empty.
  rewrite <- !eqb_empty_false. tauto.
Qed.

End ValidationProperties.

(** ** Rows *)

Lemma find_map_same_test {A : Type} (p : A -> bool) (f : A -> A) (l : list A) :
  (forall x, p (f x) = p x) ->
  List.find p (map f l) = option_map f (List.find p l).
Proof.
  intros Hp. induction l as [|x l IH]; simpl; [reflexivity|].
  rewrite Hp. destruct (p x); [reflexivity|exact IH].
Qed.

Lemma find_app_none {A : Type} (p : A -> bool) (l1 l2 : list A) :
  List.find p l1 = None -> List.find p (l1 ++ l2) = List.find p l2.
Proof.
  induction l1 as [|x l1 IH]; simpl; [reflexivity|].
  destruct (p x); [discriminate|exact IH].
Qed.

Lemma find_filter_none {A : Type} (p : A -> bool) (l : list A) :
  List.find p (List.filter (fun x => negb (p x)) l) = None.
Proof.
  induction l as [|x l IH]; simpl; [reflexivity|].
  destruct (p x) eqn:Hp; simpl; [exact IH|]. now rewrite Hp.
Qed.

Lemma filter_filter_implied {A : Type} (p q : A -> bool) (l : list A) :
  (forall x, q x = true -> p x = true) ->
  List.filter p (List.filter q l) = List.filter q l
  /\ List.filter q (List.filter p l) = List.filter q l.
Proof.
  intros Himp. induction l as [|x l [IH1 IH2]]; simpl; [auto|].
  destruct (q x) eqn:Hq; simpl.
  - rewrite (Himp x Hq). simpl. rewrite Hq. now rewrite IH1, IH2.
  - destruct (p x); simpl; rewrite ?Hq; auto.
Qed.

Lemma filter_none_hit {A : Type} (p : A -> bool) (l : list A) :
  List.filter p l = [] -> List.filter (fun x => negb (p x)) l = l.
Proof.
  induction l as [|x l IH]; simpl; [reflexivity|].
  destruct (p x); simpl; [discriminate|]. intros H. now rewrite IH.
Qed.

(** ** Deleting a job *)

Lemma DeleteJob_store (id : string) (db : DB) :
  fault db = None ->
  fst (DeleteJob id db)
  = mkDB (List.filter (fun j => negb (String.eqb (Job.ID j) id)) (jobs db))
         (roles db) None.
Proof. intros Hf. unfold DeleteJob. rewrite Hf. destruct (negb _); reflexivity. Qed.

Lemma DeleteJob_error (id : string) (db : DB) :
  fault db = None ->
  snd (DeleteJob id db)
  = let n := length (List.filter (fun j => String.eqb (Job.ID j) id) (jobs db)) in
    if Nat.eqb n 1 then None else Some (NotOneRow n).
Proof. intros Hf. unfold DeleteJob. rewrite Hf. simpl. destruct (Nat.eqb _ 1); reflexivity. Qed.

(** X3. [DeleteJob] on a working backend removes every row with the id and
    no other row, leaves the roles alone, and returns nil exactly when one
    row was removed; afterwards [GetJob] finds nothing under the id. *)
Theorem DeleteJob_removes_the_id (id : string) (db : DB) :
  fault db = None ->
  (snd (DeleteJob id db) = None
   <-> length (List.filter (fun j => String.eqb (Job.ID j) id) (jobs db)) = 1%nat)
  /\ (forall row, In row (jobs (fst (DeleteJob id db)))
                  <-> In row (jobs db) /\ Job.ID row <> id)
  /\ roles (fst (DeleteJob id db)) = roles db
  /\ GetJob id (fst (DeleteJob id db)) = (Job.zero, None).
Proof.
  intros Hf. rewrite DeleteJob_store, DeleteJob_error by exact Hf. simpl.
  split; [|split; [|split]].
  - destruct (Nat.eqb_spec
                (length (List.filter (fun j => String.eqb (Job.ID j) id) (jobs db))) 1)
      as [Hn|Hn]; [tauto|].
    split; [discriminate|contradiction].
  - intros row. rewrite filter_In.
    destruct (String.eqb_spec (Job.ID row) id); simpl; intuition congruence.
  - reflexivity.
  - unfold GetJob, Get_job. simpl.
    now rewrite (find_filter_none (fun j => String.eqb (Job.ID j) id)).
Qed.

(** X4. [DeleteJob] of an id without a row changes no row and still
    returns an error: so does a second [DeleteJob] of a job just
    deleted. *)
Theorem DeleteJob_twice_fails (id : string) (db : DB) :
  fault db = None ->
  DeleteJob id (fst (DeleteJob id db))
  = (fst (DeleteJob id db), Some (NotOneRow 0)).
Proof.
  intros Hf. rewrite (DeleteJob_store id db Hf).
  assert (Hnone : List.filter (fun j => String.eqb (Job.ID j) id)
                    (List.filter (fun j => negb (String.eqb (Job.ID j) id)) (jobs db))
                  = []).
  { induction (jobs db) as [|x l IH]; simpl; [reflexivity|].
    destruct (String.eqb (Job.ID x) id) eqn:Hx; simpl; [exact IH|].
    now rewrite Hx. }
  unfold DeleteJob. simpl. rewrite Hnone. simpl.
  now rewrite (filter_none_hit _ _ Hnone).
Qed.

(** ** The retention sweep, pass after pass *)

(** X5. Of two passes the later one decides: run after or before an earlier
    pass, it leaves what it leaves when run alone.  In particular a pass
    repeated at the same instant changes nothing more. *)
Theorem sweepPass_latest_decides (t1 t2 : Time) (db : DB) :
  t1 <= t2 ->
  fst (sweepPass t2 (fst (sweepPass t1 db))) = fst (sweepPass t2 db)
  /\ fst (sweepPass t1 (fst (sweepPass t2 db))) = fst (sweepPass t2 db).
Proof.
  intros Hle. unfold sweepPass.
  destruct (fault db) as [msg|] eqn:Hf; simpl; rewrite ?Hf; simpl; [auto|].
  destruct (filter_filter_implied
              (fun j => negb (expired t1 (Job.PublishedAt j)))
              (fun j => negb (expired t2 (Job.PublishedAt j))) (jobs db)) as [H1 H2].
  { intros j. unfold expired.
    destruct (Z.ltb_spec (Job.PublishedAt j) (t2 - retention)); [discriminate|].
    destruct (Z.ltb_spec (Job.PublishedAt j) (t1 - retention)); [lia|reflexivity]. }
  now rewrite H1, H2.
Qed.

(** ** Updating a job *)

Lemma Job_Save_jobs (job : Job.t) (db : DB) :
  fault db = None ->
  Job_Save job db
  = (mkDB (map (fun row =>
                  if String.eqb (Job.ID row) (Job.ID job) then
                    Job.mk (Job.ID row) (Job.Position job) (Job.Organization job)
                           (Job.Url job) (Job.Description job) (Job.Email row)
                           (Job.PublishedAt row)
                  else row) (jobs db)) (roles db) None, None).
Proof. intros Hf. unfold Job_Save. now rewrite Hf. Qed.

Lemma nth_error_map_keep {A : Type} (f : A -> A) (l : list A) (i : nat) (x : A) :
  nth_error l i = Some x -> f x = x -> nth_error (map f l) i = Some x.
Proof. intros Hn Hx. rewrite nth_error_map, Hn. simpl. now rewrite Hx. Qed.

Section UpdateProperties.

Variable Time_String : Time -> string.
Variable ParseRequestURI_ok : string -> bool.
Variable ParseAddress_ok : string -> bool.

Local Set Default Proof Using "Type".

Local Abbreviation NewJob_Validate :=
  (NewJob_Validate ParseRequestURI_ok ParseAddress_ok).
Local Abbreviation UpdateJob := (UpdateJob ParseRequestURI_ok ParseAddress_ok).
Local Abbreviation POST_jobs_id :=
  (POST_jobs_id Time_String ParseRequestURI_ok ParseAddress_ok).
Local Abbreviation Job_AuthSignature := (Job_AuthSignature Time_String).
Local Abbreviation requireTokenAuth := (requireTokenAuth Time_String).

(** What [UpdateJob] does with a payload that passes validation, on a
    working backend, for the id of a stored job. *)
Lemma UpdateJob_success (db : DB) (ctx : Context) (newJob : NewJob.t) (job : Job.t) :
  fault db = None ->
  Form ctx = Some newJob ->
  NewJob_Validate newJob true = ∅ ->
  List.find (fun j => String.eqb (Job.ID j) (Param_id ctx)) (jobs db) = Some job ->
  UpdateJob db ctx
  = mkHandled (Redirect 302 "/") (AddFlash "Job updated!" flashKey (Flashes ctx))
              (fst (Job_Save (Job_Update job newJob) db)).
Proof.
  intros Hf Hform Hval Hfind. unfold UpdateJob.
  rewrite Hform, Hval, map_size_empty. simpl.
  unfold GetJob, Get_job. rewrite Hf, Hfind.
  rewrite (Job_Save_jobs _ _ Hf). reflexivity.
Qed.

(** X6. After [UpdateJob] has accepted a payload for a stored job,
    [GetJob] returns the job with position, organization, url and
    description as submitted and id, email and timestamp as before; the
    response is a redirect to the index with the flash "Job updated!". *)
Theorem UpdateJob_then_GetJob (db : DB) (ctx : Context) (newJob : NewJob.t) (job : Job.t) :
  fault db = None ->
  Form ctx = Some newJob ->
  NewJob_Validate newJob true = ∅ ->
  List.find (fun j => String.eqb (Job.ID j) (Param_id ctx)) (jobs db) = Some job ->
  response (UpdateJob db ctx) = Redirect 302 "/"
  /\ session (UpdateJob db ctx) !! flashKey
     = Some (default [] (Flashes ctx !! flashKey) ++ ["Job updated!"%string])
  /\ GetJob (Param_id ctx) (store (UpdateJob db ctx)) = (Job_Update job newJob, None).
Proof.
  intros Hf Hform Hval Hfind.
  rewrite (UpdateJob_success db ctx newJob job Hf Hform Hval Hfind). simpl.
  split; [reflexivity|]. split; [apply lookup_insert_eq|].
  rewrite (Job_Save_jobs _ _ Hf). simpl.
  pose proof (find_some _ _ Hfind) as [_ Hid]. apply String.eqb_eq in Hid.
  unfold GetJob, Get_job. simpl.
  rewrite find_map_same_test.
  2:{ intros row. destruct (String.eqb (Job.ID row) (Job.ID job)); reflexivity. }
  rewrite Hfind. simpl. rewrite String.eqb_refl. reflexivity.
Qed.

(** X7. [UpdateJob] for the id of a stored job touches rows with that id
    only: every row with another id stays where and what it was, no row is
    added or removed, and the roles are as before. *)
Theorem UpdateJob_touches_one_id (db : DB) (ctx : Context) (job : Job.t) :
  List.find (fun j => String.eqb (Job.ID j) (Param_id ctx)) (jobs db) = Some job ->
  roles (store (UpdateJob db ctx)) = roles db
  /\ length (jobs (store (UpdateJob db ctx))) = length (jobs db)
  /\ (forall (i : nat) (row : Job.t),
        nth_error (jobs db) i = Some row -> Job.ID row <> Param_id ctx ->
        nth_error (jobs (store (UpdateJob db ctx))) i = Some row).
Proof.
  intros Hfind.
  pose proof (find_some _ _ Hfind) as [_ Hid]. apply String.eqb_eq in Hid.
  unfold UpdateJob. destruct (Form ctx) as [newJob|]; [|simpl; auto].
  destruct (negb _); [simpl; auto|].
  unfold GetJob, Get_job. destruct (fault db) as [msg|] eqn:Hf; [simpl; auto|].
  rewrite Hfind. rewrite (Job_Save_jobs _ _ Hf). simpl.
  split; [reflexivity|]. split; [apply length_map|].
  intros i row Hrow Hne. apply nth_error_map_keep; [exact Hrow|].
  rewrite Hid. destruct (String.eqb_spec (Job.ID row) (Param_id ctx)); [contradiction|].
  reflexivity.
Qed.

(** X8. The route [POST /jobs/:id] changes the store only for a request
    whose token is the signature of the job that [GetJob] returns for the
    id of the request. *)
Theorem POST_jobs_id_writes_only_with_the_signature
    (c : Config.t) (db : DB) (ctx : Context) :
  store (POST_jobs_id c db ctx) <> db ->
  exists job,
    GetJob (Param_id ctx) db = (job, None)
    /\ Job.ID job = Param_id ctx
    /\ Query ctx "token" = Job_AuthSignature job (Config.AppSecret c).
Proof.
  unfold POST_jobs_id, requireTokenAuth.
  change (String.eqb JobRoute JobRoute) with true. cbv iota.
  destruct (GetJob (Param_id ctx) db) as [job [e|]] eqn:Hget;
    [intros H; now contradiction H|].
  destruct (String.eqb_spec (Job.ID job) (Param_id ctx)) as [Hid|Hid]; simpl;
    [|intros H; now contradiction H].
  rewrite compareToken_spec. simpl.
  destruct (decide (Query ctx "token" = Job_AuthSignature job (Config.AppSecret c)))
    as [Htok|Htok]; [|intros H; now contradiction H].
  intros _. exists job. auto.
Qed.

End UpdateProperties.

(** ** Serial ids *)

Lemma digit_not_colon (d : Z) :
  0 <= d < 10 -> NetURL.is_char (ascii_of_N (Z.to_N (48 + d))) ":" = false.
Proof.
  intros Hd.
  assert (H : d = 0 \/ d = 1 \/ d = 2 \/ d = 3 \/ d = 4 \/ d = 5 \/ d = 6 \/ d = 7
              \/ d = 8 \/ d = 9) by lia.
  repeat destruct H as [->|H]; try reflexivity. subst. reflexivity.
Qed.

Lemma digits_no_colon (fuel : nat) :
  forall (n : Z) (acc : string),
    NetURL.contains ":" acc = false ->
    NetURL.contains ":" (UTC.digits fuel n acc) = false.
Proof.
  induction fuel as [|fuel IH]; intros n acc Hacc; simpl; [exact Hacc|].
  assert (Hacc' : NetURL.contains ":"
                    (String (ascii_of_N (Z.to_N (48 + n mod 10))) acc) = false).
  { simpl. rewrite digit_not_colon by (apply Z.mod_pos_bound; lia). exact Hacc. }
  destruct (n <? 10); [exact Hacc'|]. now apply IH.
Qed.

(** The id the backend gives a new row holds no [":"]. *)
Lemma FormatInt_no_colon (n : Z) : NetURL.contains ":" (GoStrings.FormatInt n) = false.
Proof.
  unfold GoStrings.FormatInt. destruct (n <? 0).
  - change (NetURL.contains ":" (String "-" (UTC.digits 20 (- n) EmptyString)))
      with (NetURL.contains ":" (UTC.digits 20 (- n) EmptyString)).
    now apply digits_no_colon.
  - now apply digits_no_colon.
Qed.

Lemma digit_inj (a b : Z) :
  0 <= a < 10 -> 0 <= b < 10 ->
  ascii_of_N (Z.to_N (48 + a)) = ascii_of_N (Z.to_N (48 + b)) -> a = b.
Proof.
  intros Ha Hb H. apply (f_equal N_of_ascii) in H.
  rewrite !N_ascii_embedding in H by lia. lia.
Qed.

Lemma digits_length (fuel : nat) :
  forall (n : Z) (acc : string),
    (String.length acc <= String.length (UTC.digits fuel n acc))%nat.
Proof.
  induction fuel as [|fuel IH]; intros n acc; simpl; [lia|].
  destruct (n <? 10); simpl; [lia|].
  specialize (IH (n / 10) (String (ascii_of_N (Z.to_N (48 + n mod 10))) acc)).
  simpl in IH. lia.
Qed.

Lemma digits_inj (fuel : nat) :
  forall (n m : Z) (a1 a2 : string),
    0 <= n < 10 ^ Z.of_nat fuel -> 0 <= m < 10 ^ Z.of_nat fuel ->
    String.length a1 = String.length a2 ->
    UTC.digits fuel n a1 = UTC.digits fuel m a2 -> n = m /\ a1 = a2.
Proof.
  induction fuel as [|fuel IH]; intros n m a1 a2 Hn Hm Hlen H.
  - simpl in *. split; [lia|exact H].
  - rewrite Nat2Z.inj_succ, Z.pow_succ_r in Hn, Hm by lia.
    simpl in H.
    set (c1 := ascii_of_N (Z.to_N (48 + n mod 10))) in *.
    set (c2 := ascii_of_N (Z.to_N (48 + m mod 10))) in *.
    assert (Hdig : c1 = c2 -> n mod 10 = m mod 10).
    { apply digit_inj; apply Z.mod_pos_bound; lia. }
    destruct (Z.ltb_spec n 10) as [Hn10|Hn10], (Z.ltb_spec m 10) as [Hm10|Hm10].
    + injection H as Hc Ha. split; [|exact Ha].
      apply Hdig in Hc. rewrite !Z.mod_small in Hc by lia. exact Hc.
    + exfalso. apply (f_equal String.length) in H. simpl in H.
      destruct fuel as [|fuel]; [simpl in Hm; lia|].
      pose proof (digits_length (S fuel) (m / 10) (String c2 a2)) as Hl.
      simpl in Hl, H.
      destruct (m / 10 <? 10); simpl in *; [lia|].
      pose proof (digits_length fuel (m / 10 / 10)
                    (String (ascii_of_N (Z.to_N (48 + (m / 10) mod 10))) (String c2 a2)))
        as Hl'.
      simpl in Hl'. lia.
    + exfalso. apply (f_equal String.length) in H. simpl in H.
      destruct fuel as [|fuel]; [simpl in Hn; lia|].
      simpl in H.
      destruct (n / 10 <? 10); simpl in *; [lia|].
      pose proof (digits_length fuel (n / 10 / 10)
                    (String (ascii_of_N (Z.to_N (48 + (n / 10) mod 10))) (String c1 a1)))
        as Hl'.
      simpl in Hl'. lia.
    + destruct (IH (n / 10) (m / 10) (String c1 a1) (String c2 a2)) as [Hq Ha].
      * split; [apply Z.div_pos; lia|]. apply Z.div_lt_upper_bound; lia.
      * split; [apply Z.div_pos; lia|]. apply Z.div_lt_upper_bound; lia.
      * simpl. now rewrite Hlen.
      * exact H.
      * injection Ha as Hc Ha. split; [|exact Ha].
        apply Hdig in Hc.
        rewrite (Z.div_mod n 10), (Z.div_mod m 10) by lia. now rewrite Hq, Hc.
Qed.

(** Different serial numbers have different ids. *)
Lemma FormatInt_inj (n m : Z) :
  0 <= n < 2 ^ 63 -> 0 <= m < 2 ^ 63 ->
  GoStrings.FormatInt n = GoStrings.FormatInt m -> n = m.
Proof.
  intros Hn Hm. unfold GoStrings.FormatInt.
  destruct (Z.ltb_spec n 0) as [Hn0|Hn0]; [lia|].
  destruct (Z.ltb_spec m 0) as [Hm0|Hm0]; [lia|].
  intros Heq. apply (digits_inj 20 n m EmptyString EmptyString); auto.
  - change (2 ^ 63) with 9223372036854775808 in Hn.
    change (10 ^ Z.of_nat 20) with 100000000000000000000. lia.
  - change (2 ^ 63) with 9223372036854775808 in Hm.
    change (10 ^ Z.of_nat 20) with 100000000000000000000. lia.
Qed.

(** ** Listings under serial ids *)

Section SerialIds.

Variable Time_String : Time -> string.

Local Set Default Proof Using "Type".

Local Abbreviation AuthSignature := (AuthSignature Time_String).
Local Abbreviation input := (input Time_String).

(** C7. Two listings, of one kind or of two, that are held under different
    serial ids are signed over different strings, whatever their emails
    and timestamps and whatever the secret, so that equal signatures under
    one secret would be a collision of the HMAC. *)
Theorem distinct_serial_ids_give_distinct_inputs
    (r1 r2 : Listing) (secret : string) (n1 n2 : Z) :
  0 <= n1 < 2 ^ 63 -> 0 <= n2 < 2 ^ 63 -> n1 <> n2 ->
  listing_ID r1 = GoStrings.FormatInt n1 ->
  listing_ID r2 = GoStrings.FormatInt n2 ->
  input r1 secret <> input r2 secret
  /\ (AuthSignature r1 secret = AuthSignature r2 secret ->
      GoBytes.of_string (input r1 secret) <> GoBytes.of_string (input r2 secret)
      /\ HMAC.SumSHA256 (GoBytes.of_string secret) (GoBytes.of_string (input r1 secret))
         = HMAC.SumSHA256 (GoBytes.of_string secret)
             (GoBytes.of_string (input r2 secret))).
Proof.
  intros Hn1 Hn2 Hne Hid1 Hid2.
  apply distinct_plain_ids_give_distinct_inputs.
  - rewrite Hid1. apply FormatInt_no_colon.
  - rewrite Hid2. apply FormatInt_no_colon.
  - rewrite Hid1, Hid2. intros Heq. apply Hne.
    now apply FormatInt_inj.
Qed.

End SerialIds.

(** ** Creating a job *)

Lemma existsb_fresh (id : string) (l : list Job.t) :
  Forall (fun row => Job.ID row <> id) l ->
  existsb (fun row => String.eqb (Job.ID row) id) l = false.
Proof.
  induction 1 as [|row l Hrow _ IH]; simpl; [reflexivity|].
  destruct (String.eqb_spec (Job.ID row) id); [contradiction|exact IH].
Qed.

Lemma NewJob_SaveToDB_fresh (newJob : NewJob.t) (serial : Z) (now : Time) (db : DB) :
  fault db = None ->
  Forall (fun row => Job.ID row <> GoStrings.FormatInt serial) (jobs db) ->
  let job :=
    Job.mk (GoStrings.FormatInt serial)
           (NewJob.Position newJob) (NewJob.Organization newJob)
           (NullString.mk (NewJob.Url newJob) (nonempty (NewJob.Url newJob)))
           (NullString.mk (NewJob.Description newJob)
                          (nonempty (NewJob.Description newJob)))
           (NewJob.Email newJob) now in
  NewJob_SaveToDB newJob serial now db
  = (mkDB (jobs db ++ [job]) (roles db) None, (job, None)).
Proof.
  intros Hf Hfresh job. unfold NewJob_SaveToDB. rewrite Hf.
  simpl Job.ID. now rewrite (existsb_fresh _ _ Hfresh).
Qed.

(** Whatever [SaveToDB] answers, the store is the old one or the old one
    with the returned job as last row. *)
Lemma NewJob_SaveToDB_cases (newJob : NewJob.t) (serial : Z) (now : Time) (db : DB) :
  (exists e, NewJob_SaveToDB newJob serial now db = (db, (Job.zero, Some e)))
  \/ (exists job,
        NewJob_SaveToDB newJob serial now db
        = (mkDB (jobs db ++ [job]) (roles db) None, (job, None))
        /\ Job.ID job = GoStrings.FormatInt serial
        /\ Job_wf job).
Proof.
  unfold NewJob_SaveToDB. destruct (fault db); [left; eauto|].
  destruct (existsb _ _); [left; eauto|].
  right. eexists. split; [reflexivity|]. split; [reflexivity|].
  split; reflexivity.
Qed.

Section CreateProperties.

Variable Time_String : Time -> string.
Variable ParseRequestURI_ok : string -> bool.
Variable ParseAddress_ok : string -> bool.
Variable message_1 message_2 message_3 message_4 : string.

Local Set Default Proof Using "Type".

Local Abbreviation NewJob_Validate :=
  (NewJob_Validate ParseRequestURI_ok ParseAddress_ok).
Local Abbreviation UpdateJob := (UpdateJob ParseRequestURI_ok ParseAddress_ok).
Local Abbreviation Job_AuthSignature := (Job_AuthSignature Time_String).
Local Abbreviation Job_input := (Job_input Time_String).
Local Abbreviation SignedJobRoute := (SignedJobRoute Time_String).
Local Abbreviation requireTokenAuth := (requireTokenAuth Time_String).
Local Abbreviation createdMessage :=
  (createdMessage message_1 message_2 message_3 message_4).
Local Abbreviation CreateJob :=
  (CreateJob Time_String ParseRequestURI_ok ParseAddress_ok
             message_1 message_2 message_3 message_4).

(** X9. A payload that passes validation, on a working backend that hands
    out an unused id, is stored as the last row with the submitted fields,
    the id of the sequence and the timestamp of the clock; the message to
    the submitted address carries [SignedJobRoute] of that row; and the
    request for that link passes [requireTokenAuth] on the new store. *)
Theorem CreateJob_mails_a_working_link
    (svc : Services) (c : Config.t) (serial : Z) (now : Time) (db : DB)
    (ctx : Context) (newJob : NewJob.t) (send : Mail -> option string) :
  fault db = None ->
  Form ctx = Some newJob ->
  NewJob_Validate newJob false = ∅ ->
  Forall (fun row => Job.ID row <> GoStrings.FormatInt serial) (jobs db) ->
  EmailService svc = Some send ->
  let job :=
    Job.mk (GoStrings.FormatInt serial)
           (NewJob.Position newJob) (NewJob.Organization newJob)
           (NullString.mk (NewJob.Url newJob) (nonempty (NewJob.Url newJob)))
           (NullString.mk (NewJob.Description newJob)
                          (nonempty (NewJob.Description newJob)))
           (NewJob.Email newJob) now in
  let r := CreateJob svc c serial now db ctx in
  created_response r = Redirect 302 "/"
  /\ created_store r = mkDB (jobs db ++ [job]) (roles db) None
  /\ emails r
     = [mkMail (NewJob.Email newJob)
               ("Job " +:+ NewJob.Position newJob +:+ " Created!")
               (createdMessage (NewJob.Position newJob) (SignedJobRoute job c))]
  /\ GetJob (Job.ID job) (created_store r) = (job, None)
  /\ outcome (requireTokenAuth (created_store r) (Config.AppSecret c) JobRoute
                (mkContext (Job.ID job)
                   ("token=" +:+ NetURL.QueryEscape
                                   (Job_AuthSignature job (Config.AppSecret c)))
                   None ∅))
     = Next.
Proof.
  intros Hf Hform Hval Hfresh Hmail job r.
  assert (Hr : r = mkCreated (Redirect 302 "/")
                     (AddFlash "Job created!" flashKey (Flashes ctx))
                     (mkDB (jobs db ++ [job]) (roles db) None)
                     [mkMail (NewJob.Email newJob)
                        ("Job " +:+ NewJob.Position newJob +:+ " Created!")
                        (createdMessage (NewJob.Position newJob) (SignedJobRoute job c))]
                     (match SlackService svc with Some _ => [job] | None => [] end)
                     (match TwitterService svc with Some _ => [job] | None => [] end)).
  { unfold r, CreateJob. rewrite Hform, Hval, map_size_empty. simpl.
    rewrite (NewJob_SaveToDB_fresh newJob serial now db Hf Hfresh), Hmail.
    reflexivity. }
  assert (Hstored : Get_job (mkDB (jobs db ++ [job]) (roles db) None) (Job.ID job)
                    = (job, None)).
  { unfold Get_job. simpl fault. simpl jobs.
    rewrite find_app_none by (apply find_job_none; exact Hfresh).
    simpl. now rewrite String.eqb_refl. }
  rewrite Hr. cbn [created_response created_store emails].
  split; [reflexivity|]. split; [reflexivity|]. split; [reflexivity|].
  split.
  - unfold GetJob. now rewrite Hstored.
  - apply (own_signature_passes Time_String _ (Config.AppSecret c) (AJob job)).
    + exact Hstored.
    + reflexivity.
    + apply Get_ParseQuery_token.
Qed.

(** X10. Unless [CreateJob] answers with the redirect to the index, it has
    stored nothing and has asked no service for anything. *)
Theorem CreateJob_without_success_has_no_effect
    (svc : Services) (c : Config.t) (serial : Z) (now : Time) (db : DB) (ctx : Context) :
  created_response (CreateJob svc c serial now db ctx) <> Redirect 302 "/" ->
  created_store (CreateJob svc c serial now db ctx) = db
  /\ emails (CreateJob svc c serial now db ctx) = []
  /\ slacks (CreateJob svc c serial now db ctx) = []
  /\ tweets (CreateJob svc c serial now db ctx) = [].
Proof.
  unfold CreateJob. destruct (Form ctx) as [newJob|]; [|simpl; auto].
  destruct (negb _); [simpl; auto|].
  destruct (NewJob_SaveToDB_cases newJob serial now db) as [[e ->]|[job [-> _]]].
  - simpl. auto.
  - simpl. intros H. now contradiction H.
Qed.

(** X11. Jobs that [SaveToDB] stored under different serial numbers are
    signed over different strings, whatever their emails and timestamps. *)
Theorem created_jobs_sign_different_strings
    (newJob1 newJob2 : NewJob.t) (serial1 serial2 : Z) (now1 now2 : Time)
    (db1 db2 : DB) :
  0 <= serial1 < 2 ^ 63 -> 0 <= serial2 < 2 ^ 63 -> serial1 <> serial2 ->
  snd (snd (NewJob_SaveToDB newJob1 serial1 now1 db1)) = None ->
  snd (snd (NewJob_SaveToDB newJob2 serial2 now2 db2)) = None ->
  Job_input (fst (snd (NewJob_SaveToDB newJob1 serial1 now1 db1)))
  <> Job_input (fst (snd (NewJob_SaveToDB newJob2 serial2 now2 db2))).
Proof.
  intros H1 H2 Hne.
  destruct (NewJob_SaveToDB_cases newJob1 serial1 now1 db1)
    as [[e1 ->]|[job1 (-> & Hid1 & _)]]; [discriminate|].
  destruct (NewJob_SaveToDB_cases newJob2 serial2 now2 db2)
    as [[e2 ->]|[job2 (-> & Hid2 & _)]]; [discriminate|].
  simpl. intros _ _ Heq. apply Hne, FormatInt_inj; try assumption.
  rewrite <- Hid1, <- Hid2.
  pose proof (input_starts_with_id Time_String (AJob job1) EmptyString) as P1.
  pose proof (input_starts_with_id Time_String (AJob job2) EmptyString) as P2.
  simpl in P1, P2.
  rewrite <- P1, <- P2, Heq; [reflexivity| |].
  - rewrite Hid2. apply FormatInt_no_colon.
  - rewrite Hid1. apply FormatInt_no_colon.
Qed.

(** X12. Every write path keeps the nullable columns well formed: if each
    stored job has url and description valid exactly when not empty, so it
    is after [UpdateJob], [CreateJob], [DeleteJob] and a sweep. *)
Theorem write_paths_keep_jobs_well_formed
    (svc : Services) (c : Config.t) (serial : Z) (now : Time) (id : string)
    (db : DB) (ctx : Context) :
  Forall Job_wf (jobs db) ->
  Forall Job_wf (jobs (store (UpdateJob db ctx)))
  /\ Forall Job_wf (jobs (created_store (CreateJob svc c serial now db ctx)))
  /\ Forall Job_wf (jobs (fst (DeleteJob id db)))
  /\ Forall Job_wf (jobs (fst (sweepPass now db))).
Proof.
  intros Hwf. split; [|split; [|split]].
  - unfold UpdateJob. destruct (Form ctx) as [newJob|]; [|exact Hwf].
    destruct (negb _); [exact Hwf|].
    destruct (GetJob (Param_id ctx) db) as [job [e|]]; [exact Hwf|].
    unfold Job_Save. destruct (fault db); [exact Hwf|]. simpl.
    apply List.Forall_forall. intros row Hin. apply in_map_iff in Hin as (old & <- & Hold).
    destruct (String.eqb (Job.ID old) (Job.ID job)).
    + split; reflexivity.
    + revert old Hold. now apply List.Forall_forall.
  - unfold CreateJob. destruct (Form ctx) as [newJob|]; [|exact Hwf].
    destruct (negb _); [exact Hwf|].
    destruct (NewJob_SaveToDB_cases newJob serial now db)
      as [[e ->]|[job (-> & _ & Hjob)]]; simpl; [exact Hwf|].
    apply Forall_app. split; [exact Hwf|]. now constructor.
  - unfold DeleteJob. destruct (fault db); [exact Hwf|].
    assert (H : Forall Job_wf
                  (List.filter (fun j => negb (String.eqb (Job.ID j) id)) (jobs db))).
    { apply List.Forall_forall. intros row Hin. apply filter_In in Hin as [Hin _].
      revert row Hin. now apply List.Forall_forall. }
    destruct (negb _); exact H.
  - unfold sweepPass. destruct (fault db); [exact Hwf|]. simpl.
    apply List.Forall_forall. intros row Hin. apply filter_In in Hin as [Hin _].
    revert row Hin. now apply List.Forall_forall.
Qed.

End CreateProperties.

(** ** Pages *)

Section ValidationKeys.

Variable ParseRequestURI_ok : string -> bool.
Variable ParseAddress_ok : string -> bool.

Local Set Default Proof Using "Type".

Local Abbreviation NewJob_Validate :=
  (NewJob_Validate ParseRequestURI_ok ParseAddress_ok).

(** The keys [NewJob.Validate] reports under are among the fields the
    forms show messages for. *)
Lemma NewJob_Validate_keys (newJob : NewJob.t) (update : bool) (k msg : string) :
  NewJob_Validate newJob update !! k = Some msg ->
  k = "position"%string \/ k = "organization"%string \/ k = "url"%string
  \/ k = "email"%string.
Proof.
  intros H. apply (elem_of_dom_2 (D := gset string)) in H. revert H.
  unfold NewJob_Validate.
  destruct (String.eqb (NewJob.Position newJob) ""),
           (String.eqb (NewJob.Organization newJob) ""),
           (String.eqb (NewJob.Url newJob) ""),
           (String.eqb (NewJob.Description newJob) ""),
           (ParseRequestURI_ok (NewJob.Url newJob)),
           update,
           (String.eqb (NewJob.Email newJob) ""),
           (ParseAddress_ok (NewJob.Email newJob));
    simpl; rewrite ?dom_insert_L, dom_empty_L; set_unfold; tauto.
Qed.

End ValidationKeys.

Section PageProperties.

Variable Time_String : Time -> string.
Variable ParseRequestURI_ok : string -> bool.
Variable ParseAddress_ok : string -> bool.
Variable markdown_Convert : string -> option string.

Local Set Default Proof Using "Type".

Local Abbreviation NewJob_Validate :=
  (NewJob_Validate ParseRequestURI_ok ParseAddress_ok).
Local Abbreviation UpdateJob := (UpdateJob ParseRequestURI_ok ParseAddress_ok).
Local Abbreviation Job_AuthSignature := (Job_AuthSignature Time_String).
Local Abbreviation requireTokenAuth := (requireTokenAuth Time_String).
Local Abbreviation GET_jobs_id_edit := (GET_jobs_id_edit Time_String).
Local Abbreviation ViewJob := (ViewJob markdown_Convert).

(** What [EditJob] renders on a backend that answers. *)
Lemma EditJob_page (db : DB) (ctx : Context) :
  snd (GetJob (Param_id ctx) db) = None ->
  let s := Flashes ctx in
  let err k := VFlashes (default [] (s !! k)) in
  EditJob db ctx
  = mkRendered
      (PageHTML 200 "edit"
         (<["flashes" := err flashKey]>
            (<["email_err" := err "email_err"%string]>
               (<["description_err" := err "description_err"%string]>
                  (<["url_err" := err "url_err"%string]>
                     (<["organization_err" := err "organization_err"%string]>
                        (<["position_err" := err "position_err"%string]>
                           (<["token" := VString (Query ctx "token")]>
                              (<["job" := VJob (fst (GetJob (Param_id ctx) db))]>
                                 ∅)))))))))
      (delete flashKey
         (delete "email_err"
            (delete "description_err"
               (delete "url_err"
                  (delete "organization_err" (delete "position_err" s)))))).
Proof.
  intros Hget s err. unfold EditJob.
  destruct (GetJob (Param_id ctx) db) as [job e]. simpl in Hget. subst e.
  unfold takeFieldErrors, flashFields, addFlash, Session_Flashes. simpl.
  unfold err, s.
  rewrite !lookup_delete_ne by discriminate. reflexivity.
Qed.

(** X13. The messages of a rejected update reach the edit form once: the
    [EditJob] that follows shows each message under the key of its field
    and takes it out of the session. *)
Theorem rejected_update_messages_are_shown_once
    (db db' : DB) (ctx ctx' : Context) (newJob : NewJob.t) (k msg : string) :
  Form ctx = Some newJob ->
  NewJob_Validate newJob true !! k = Some msg ->
  snd (GetJob (Param_id ctx') db') = None ->
  Flashes ctx' = session (UpdateJob db ctx) ->
  exists vars,
    page (EditJob db' ctx') = PageHTML 200 "edit" vars
    /\ vars !! (k +:+ "_err")
       = Some (VFlashes (default [] (Flashes ctx !! (k +:+ "_err")) ++ [msg]))
    /\ page_session (EditJob db' ctx') !! (k +:+ "_err") = None.
Proof.
  intros Hform Hk Hget Hsess.
  assert (Hne : NewJob_Validate newJob true <> ∅).
  { intros He. rewrite He, lookup_empty in Hk. discriminate. }
  pose proof (UpdateJob_validation_failure ParseRequestURI_ok ParseAddress_ok
                db ctx newJob Hform Hne) as Hupd.
  assert (Hflash : Flashes ctx' !! (k +:+ "_err")
                   = Some (default [] (Flashes ctx !! (k +:+ "_err")) ++ [msg])).
  { rewrite Hsess, Hupd. simpl. now rewrite flashErrors_lookup, Hk. }
  rewrite (EditJob_page db' ctx' Hget). simpl.
  eexists. split; [reflexivity|].
  destruct (NewJob_Validate_keys ParseRequestURI_ok ParseAddress_ok newJob true k msg Hk) as [ -> | [ -> | [ -> | -> ] ] ];
    cbv [String.app] in Hflash |- *;
    (split;
     [ rewrite ?lookup_insert_eq, ?lookup_insert_ne by discriminate;
       rewrite ?lookup_insert_eq; now rewrite Hflash
     | rewrite ?lookup_delete_eq, ?lookup_delete_ne by discriminate;
       now rewrite ?lookup_delete_eq ]).
Qed.

(** X14. For the id of a stored job the route [GET /jobs/:id/edit] renders
    the edit form, with the stored job and the token in it, when the token
    is the job's signature; any other token is answered with 403 and the
    session is left alone. *)
Theorem GET_jobs_id_edit_shows_the_stored_job
    (c : Config.t) (db : DB) (ctx : Context) (job : Job.t) :
  stored db (AJob job) -> Param_id ctx = Job.ID job ->
  (Query ctx "token" = Job_AuthSignature job (Config.AppSecret c) ->
   exists vars,
     page (GET_jobs_id_edit c db ctx) = PageHTML 200 "edit" vars
     /\ vars !! "job"%string = Some (VJob job)
     /\ vars !! "token"%string
        = Some (VString (Job_AuthSignature job (Config.AppSecret c))))
  /\ (Query ctx "token" <> Job_AuthSignature job (Config.AppSecret c) ->
      GET_jobs_id_edit c db ctx = mkRendered (PageAbort 403) (Flashes ctx)).
Proof.
  intros Hst Hid.
  pose proof (requireTokenAuth_stored Time_String db (Config.AppSecret c) (AJob job)
                ctx Hst Hid) as Hauth.
  simpl in Hauth. unfold GET_jobs_id_edit. rewrite Hauth, compareToken_spec. simpl.
  assert (Hget : GetJob (Param_id ctx) db = (job, None)).
  { rewrite Hid. unfold GetJob. simpl in Hst. now rewrite Hst. }
  split; intros Htok; destruct (decide _) as [Heq|Hne]; try contradiction.
  - rewrite EditJob_page by now rewrite Hget. simpl.
    eexists. split; [reflexivity|]. rewrite Hget, Htok. simpl.
    split; now rewrite ?lookup_insert_eq, ?lookup_insert_ne by discriminate.
  - reflexivity.
Qed.

(** X15. [ViewJob] has no 404: for an id without a row it renders the view
    page, with status 200, of the zero-valued job and an empty
    description; only a failure of the backend is answered otherwise, with
    500. *)
Theorem ViewJob_unknown_id_is_rendered (db : DB) (ctx : Context) :
  (fault db = None ->
   Forall (fun j => Job.ID j <> Param_id ctx) (jobs db) ->
   ViewJob db ctx
   = PageHTML 200 "view"
       (<["description" := VHTML ""]> (<["job" := VJob Job.zero]> ∅)))
  /\ (forall msg, fault db = Some msg -> ViewJob db ctx = PageAbort 500).
Proof.
  split.
  - intros Hf Hrows. unfold ViewJob, GetJob, Get_job.
    rewrite Hf, (find_job_none _ _ Hrows). reflexivity.
  - intros msg Hf. unfold ViewJob, GetJob, Get_job. now rewrite Hf.
Qed.

(** X16. When the conversion of a stored job's description fails,
    [ViewJob] serves the description as it was submitted, as the page's
    HTML. *)
Theorem ViewJob_serves_raw_description_on_failure
    (db : DB) (ctx : Context) (job : Job.t) :
  GetJob (Param_id ctx) db = (job, None) ->
  NullString.Valid (Job.Description job) = true ->
  markdown_Convert (NullString.String (Job.Description job)) = None ->
  ViewJob db ctx
  = PageHTML 200 "view"
      (<["description" := VHTML (NullString.String (Job.Description job))]>
         (<["job" := VJob job]> ∅)).
Proof.
  intros Hget Hvalid Hconv. unfold ViewJob, Job_RenderDescription.
  now rewrite Hget, Hvalid, Hconv.
Qed.

End PageProperties.

(** ** Loading the configuration *)

Lemma HasPrefix_refl (s : string) : GoStrings.HasPrefix s s = true.
Proof.
  induction s as [|c s IH]; simpl; [reflexivity|]. now rewrite Ascii.eqb_refl.
Qed.

Lemma Contains_here (s substr : string) :
  GoStrings.HasPrefix s substr = true -> GoStrings.Contains s substr = true.
Proof. intros H. destruct s; cbn [GoStrings.Contains]; now rewrite H. Qed.

Lemma Contains_app_r (s t substr : string) :
  GoStrings.Contains t substr = true -> GoStrings.Contains (s +:+ t) substr = true.
Proof.
  intros H. induction s as [|c s IH]; [exact H|].
  change (String c s +:+ t) with (String c (s +:+ t)).
  cbn [GoStrings.Contains]. rewrite IH. apply orb_true_r.
Qed.

(** X17. After a successful [LoadConfig] the database URL mentions
    [sslmode=disable] and the port holds a colon, whatever the environment
    gave; no other setting is changed, and a configuration that has been
    through [LoadConfig] passes through it again unchanged. *)
Theorem LoadConfig_normalises_once (config : EnvConfig.t) :
  let loaded := fst (EnvConfig.LoadConfig config None) in
  snd (EnvConfig.LoadConfig config None) = None
  /\ GoStrings.Contains (EnvConfig.DatabaseURL loaded) "sslmode=disable" = true
  /\ GoStrings.Contains (EnvConfig.Port loaded) ":" = true
  /\ EnvConfig.with_Port
       (EnvConfig.with_DatabaseURL loaded (EnvConfig.DatabaseURL config))
       (EnvConfig.Port config) = config
  /\ EnvConfig.LoadConfig loaded None = (loaded, None).
Proof.
  destruct config as [url port env secret dburl email twitter hook user pass].
  assert (Hdb : GoStrings.Contains (dburl +:+ "?sslmode=disable") "sslmode=disable"
                = true).
  { apply Contains_app_r. reflexivity. }
  assert (Hport : GoStrings.Contains (":" +:+ port) ":" = true).
  { apply Contains_here. now destruct port. }
  unfold EnvConfig.LoadConfig, EnvConfig.with_DatabaseURL, EnvConfig.with_Port.
  cbn -[GoStrings.Contains String.append].
  destruct (GoStrings.Contains dburl "sslmode=disable") eqn:Hd;
    destruct (GoStrings.Contains port ":") eqn:Hp;
    do 4 (cbn -[GoStrings.Contains String.append];
          rewrite ?Hd, ?Hp, ?Hdb, ?Hport);
    repeat split; reflexivity.
Qed.

(** ** The shape of a signature *)

Lemma round_length (st : list Z) (kw : Z * Z) :
  length (SHA256.round st kw) = length st.
Proof.
  unfold SHA256.round. do 9 (destruct st as [|? st]; [reflexivity|]). reflexivity.
Qed.

Lemma fold_round_length (l : list (Z * Z)) :
  forall st, length (fold_left SHA256.round l st) = length st.
Proof.
  induction l as [|kw l IH]; intros st; simpl; [reflexivity|].
  now rewrite IH, round_length.
Qed.

Lemma compress_length (st block : list Z) :
  length (SHA256.compress st block) = length st.
Proof.
  unfold SHA256.compress.
  rewrite length_map, length_combine, fold_round_length. apply Nat.min_id.
Qed.

Lemma blocks_length (fuel : nat) :
  forall ws st, length (SHA256.blocks fuel ws st) = length st.
Proof.
  induction fuel as [|f IH]; intros ws st; simpl; [reflexivity|].
  destruct ws; [reflexivity|]. now rewrite IH, compress_length.
Qed.

Lemma be_bytes_length (n : nat) (x : Z) : length (SHA256.be_bytes n x) = n.
Proof. induction n as [|n IH]; simpl; [reflexivity|]. now rewrite IH. Qed.

(** A SHA-256 digest has 32 bytes, and so has the HMAC. *)
Lemma Sum256_length (msg : list Z) : length (SHA256.Sum256 msg) = 32%nat.
Proof.
  unfold SHA256.Sum256.
  assert (H : forall l : list Z,
             length (flat_map (SHA256.be_bytes 4) l) = (4 * length l)%nat).
  { induction l as [|w l IH]; [reflexivity|].
    change (flat_map (SHA256.be_bytes 4) (w :: l))
      with (SHA256.be_bytes 4 w ++ flat_map (SHA256.be_bytes 4) l).
    rewrite length_app, be_bytes_length, IH. simpl length. lia. }
  rewrite H, blocks_length. reflexivity.
Qed.

Lemma SumSHA256_length (key msg : list Z) : length (HMAC.SumSHA256 key msg) = 32%nat.
Proof. apply Sum256_length. Qed.

Lemma enc_unreserved (v : Z) : 0 <= v < 64 -> NetURL.shouldEscape (Base64.enc v) = false.
Proof.
  intros Hv. rewrite <- (Z2Nat.id v) by lia.
  assert (Hn : (Z.to_nat v < 64)%nat) by lia.
  generalize dependent (Z.to_nat v). clear v Hv. intros n Hn.
  do 64 (destruct n as [|n]; [reflexivity|]). lia.
Qed.

Lemma sextet_unreserved (val shift : Z) :
  NetURL.shouldEscape (Base64.sextet val shift) = false.
Proof.
  apply enc_unreserved. change 63 with (Z.ones 6).
  rewrite Z.land_ones by lia. apply Z.mod_pos_bound. reflexivity.
Qed.

Lemma QueryEscape_app (s t : string) :
  NetURL.QueryEscape (s +:+ t) = NetURL.QueryEscape s +:+ NetURL.QueryEscape t.
Proof.
  induction s as [|c s IH]; [reflexivity|].
  change (String c s +:+ t) with (String c (s +:+ t)).
  cbn [NetURL.QueryEscape]. rewrite IH.
  destruct (NetURL.shouldEscape c); [|reflexivity].
  destruct (NetURL.is_char c " "); reflexivity.
Qed.

(** The encoding of [3 k + 2] bytes: [4 k + 3] characters that a query
    carries unescaped, and one ["="]. *)
Lemma EncodeToString_two_over (l : list Z) :
  forall k : nat,
    length l = (3 * k + 2)%nat ->
    exists body : string,
      Base64.EncodeToString l = body +:+ "="
      /\ String.length body = (4 * k + 3)%nat
      /\ NetURL.QueryEscape body = body.
Proof.
  induction l as [|a|a b|a b c l IH] using list_ind3; intros k Hlen;
    simpl in Hlen; try lia.
  - assert (k = O) by lia. subst k.
    cbn [Base64.EncodeToString].
    eexists (String _ (String _ (String _ EmptyString))).
    split; [reflexivity|]. split; [reflexivity|].
    cbn [NetURL.QueryEscape]. now rewrite !sextet_unreserved.
  - destruct k as [|k]; [lia|].
    destruct (IH k ltac:(lia)) as (body & Henc & Hl & Hq).
    cbn [Base64.EncodeToString]. rewrite Henc.
    eexists (String _ (String _ (String _ (String _ body)))).
    split; [reflexivity|]. split; [simpl; lia|].
    cbn [NetURL.QueryEscape]. now rewrite !sextet_unreserved, Hq.
Qed.

Section SignatureShape.

Variable Time_String : Time -> string.

Local Set Default Proof Using "Type".

Local Abbreviation AuthSignature := (AuthSignature Time_String).

(** X18. Every signature, of a job or of a role and under every secret,
    is 43 characters that a query carries as they are, followed by one
    ["="]; in the signed link the token is those 43 characters followed by
    [%3D]. *)
Theorem signature_is_43_characters_and_a_pad (r : Listing) (secret : string) :
  exists body : string,
    AuthSignature r secret = body +:+ "="
    /\ String.length body = 43%nat
    /\ NetURL.QueryEscape (AuthSignature r secret) = body +:+ "%3D".
Proof.
  rewrite (AuthSignature_input Time_String r secret).
  destruct (EncodeToString_two_over
              (HMAC.SumSHA256 (GoBytes.of_string secret)
                 (GoBytes.of_string (input Time_String r secret))) 10
              (SumSHA256_length _ _)) as (body & Henc & Hl & Hq).
  exists body. rewrite Henc, QueryEscape_app, Hq. auto.
Qed.

(** X19. [Role.Update] followed by [Role.Save] and [GetRole]: the role
    comes back with the submitted fields and with its id, email and
    timestamp, so with its signature; no other table is touched. *)
Theorem Role_Update_Save_then_GetRole
    (db : DB) (role : Role.t) (newRole : NewRole.t) (secret : string) :
  stored db (ARole role) ->
  let saved := Role_Save (Role_Update role newRole) db in
  snd saved = None
  /\ GetRole (Role.ID role) (fst saved) = (Role_Update role newRole, None)
  /\ jobs (fst saved) = jobs db
  /\ AuthSignature (ARole (Role_Update role newRole)) secret
     = AuthSignature (ARole role) secret.
Proof.
  simpl. unfold Get_role, Role_Save.
  destruct (fault db) as [msg|] eqn:Hf; [discriminate|].
  destruct (List.find _ (roles db)) as [row|] eqn:Hfind; [|discriminate].
  intros Heq. injection Heq as ->. simpl.
  split; [reflexivity|]. split; [|split; reflexivity].
  unfold GetRole, Get_role. simpl.
  rewrite find_map_same_test.
  2:{ intros x. simpl.
      destruct (String.eqb (Role.ID x) (Role.ID role)) eqn:E; simpl; now rewrite ?E. }
  rewrite Hfind. simpl. rewrite String.eqb_refl. reflexivity.
Qed.

(** X20. [requireTokenAuth] answers 500 for a job or a role exactly when
    the backend fails, and always for a kind of listing it does not
    know. *)
Theorem requireTokenAuth_500_is_the_backend
    (db : DB) (secret : string) (ctx : Context) :
  (outcome (requireTokenAuth Time_String db secret JobRoute ctx) = Abort 500
   <-> fault db <> None)
  /\ (outcome (requireTokenAuth Time_String db secret RoleRoute ctx) = Abort 500
      <-> fault db <> None)
  /\ (forall kind : string,
        kind <> JobRoute -> kind <> RoleRoute ->
        outcome (requireTokenAuth Time_String db secret kind ctx) = Abort 500).
Proof.
  unfold requireTokenAuth.
  change (String.eqb JobRoute JobRoute) with true.
  change (String.eqb RoleRoute JobRoute) with false.
  change (String.eqb RoleRoute RoleRoute) with true. cbv iota.
  unfold GetJob, GetRole, Get_job, Get_role.
  split; [|split].
  - destruct (fault db) as [msg|]; simpl; [split; [discriminate|reflexivity]|].
    destruct (List.find _ (jobs db)) as [job|]; simpl;
      (destruct (negb _); simpl;
       [split; [discriminate|congruence]|]);
      rewrite compareToken_spec; simpl; destruct (decide _);
      (split; [discriminate|congruence]).
  - destruct (fault db) as [msg|]; simpl; [split; [discriminate|reflexivity]|].
    destruct (List.find _ (roles db)) as [role|]; simpl;
      (destruct (negb _); simpl;
       [split; [discriminate|congruence]|]);
      rewrite compareToken_spec; simpl; destruct (decide _);
      (split; [discriminate|congruence]).
  - intros kind Hj Hr.
    apply String.eqb_neq in Hj, Hr. now rewrite Hj, Hr.
Qed.

End SignatureShape.

(** * Test vectors, witnesses and counterexamples *)

Example sha256_abc :
  hex_of (SHA256.Sum256 (GoBytes.of_string "abc"))
  = "ba7816bf8f01cfea414140de5dae2223b00361a396177a9cb410ff61f20015ad"%string.
Proof. vm_compute. reflexivity. Qed.

Example sha256_empty :
  hex_of (SHA256.Sum256 [])
  = "e3b0c44298fc1c149afbf4c8996fb92427ae41e4649b934ca495991b7852b855"%string.
Proof. vm_compute. reflexivity. Qed.

Example hmac_rfc4231_case2 :
  hex_of (HMAC.SumSHA256 (GoBytes.of_string "Jefe")
            (GoBytes.of_string "what do ya want for nothing?"))
  = "5bdcc146bf60754e6a042426089575c75a003f089d2739839dec58b964ec3843"%string.
Proof. vm_compute. reflexivity. Qed.

Example utc_epoch : UTC.String 0 = "1970-01-01 00:00:00 +0000 UTC"%string.
Proof. vm_compute. reflexivity. Qed.

Example utc_zero : UTC.String zeroTime = "0001-01-01 00:00:00 +0000 UTC"%string.
Proof. vm_compute. reflexivity. Qed.

Example utc_sample :
  UTC.String 1709210096123400 = "2024-02-29 12:34:56.1234 +0000 UTC"%string.
Proof. vm_compute. reflexivity. Qed.

Example sha256_two_blocks :
  hex_of (SHA256.Sum256 (repeat 97 100))
  = "2816597888e4a0d3a36b82b83316ab32680eb8f00f8cd3b904d681246d285a0e"%string.
Proof. vm_compute. reflexivity. Qed.

Example token1_is_signature : Job_AuthSignature UTC.String job1 "sup" = token1.
Proof. vm_compute. reflexivity. Qed.

(** ** C1 *)

Lemma signed_job_route_witness :
  stored db1 (AJob job1)
  /\ let ctx :=
       mkContext (Job.ID job1)
         ("token=" +:+ NetURL.QueryEscape
                         (Job_AuthSignature UTC.String job1 (Config.AppSecret cfg1)))
         None ∅ in
     Query ctx "token" = Job_AuthSignature UTC.String job1 (Config.AppSecret cfg1)
     /\ outcome (requireTokenAuth UTC.String db1 (Config.AppSecret cfg1) JobRoute ctx)
        = Next.
Proof.
  split; [reflexivity|].
  exact (proj2 (proj2
    (signed_job_route_passes_token_check UTC.String db1 job1 cfg1 None ∅ eq_refl))).
Defined.

Example signed_job_route_sample :
  SignedJobRoute UTC.String job1 cfg1
  = "http://localhost:8080/jobs/1/edit?token=fig9EatgxEySJJ3eDr-2ZOgRpyHBrqkSkG8yPe0L5so%3D"%string.
Proof. vm_compute. reflexivity. Qed.

(** ** C2 *)

Lemma wrong_token_witness :
  stored db1 (AJob job1)
  /\ Query (request "1" "incorrect" None) "token"
     <> AuthSignature UTC.String (AJob job1) "sup"
  /\ outcome (requireTokenAuth UTC.String db1 "sup" (authType (AJob job1))
                (request "1" "incorrect" None))
     = Abort 403.
Proof.
  assert (Hne : Query (request "1" "incorrect" None) "token"
                <> AuthSignature UTC.String (AJob job1) "sup").
  { vm_compute. discriminate. }
  split; [reflexivity|]. split; [exact Hne|].
  exact (wrong_token_is_forbidden UTC.String db1 "sup" (AJob job1)
           (request "1" "incorrect" None) eq_refl eq_refl Hne).
Defined.

(** ** C3

    [requireAuth] compares with [!=]: for two wrong tokens of the length of
    the signature it examines one byte pair when the first byte differs and
    forty-three when the next-to-last does, where [requireTokenAuth]
    examines all forty-four for both. *)
Example requireAuth_comparison_stops_at_first_difference :
  String.length token1_wrong_head = String.length token1_wrong_tail
  /\ requireAuth (Job_AuthSignature UTC.String) db1 "sup"
       (request "1" token1_wrong_head None)
     = mkAuth (Abort 403) 1
  /\ requireAuth (Job_AuthSignature UTC.String) db1 "sup"
       (request "1" token1_wrong_tail None)
     = mkAuth (Abort 403) 43
  /\ requireTokenAuth UTC.String db1 "sup" JobRoute (request "1" token1_wrong_head None)
     = mkAuth (Abort 403) 44
  /\ requireTokenAuth UTC.String db1 "sup" JobRoute (request "1" token1_wrong_tail None)
     = mkAuth (Abort 403) 44.
Proof. vm_compute. repeat split. Qed.

(** ** C4

    For an id without a row [requireAuth] answers 403, and lets the request
    through when the token is the signature of the zero-valued job, where
    [requireTokenAuth] answers 404. *)
Example requireAuth_unknown_id_is_forbidden_not_missing :
  Forall (fun j => Job.ID j <> "32"%string) (jobs db1)
  /\ outcome (requireAuth (Job_AuthSignature UTC.String) db1 "sup"
                (request "32" "anything" None))
     = Abort 403
  /\ outcome (requireAuth (Job_AuthSignature UTC.String) db1 "sup"
                (request "32" "MscMLBn3oEpRWpQBKB0R3Zvk7XT8ckrg1EhvzC-MbvM=" None))
     = Next
  /\ outcome (requireTokenAuth UTC.String db1 "sup" JobRoute
                (request "32" "anything" None))
     = Abort 404.
Proof.
  split; [repeat constructor; discriminate|].
  vm_compute. repeat split.
Qed.

(** ** C5 *)

(** The signature of a role is not the HMAC of id, email and timestamp
    alone. *)
Lemma role_signature_is_not_spec_sign :
  AuthSignature UTC.String (ARole role1) "sup" <> spec_sign UTC.String (ARole role1) "sup".
Proof. vm_compute. discriminate. Qed.

Example role1_signature :
  Role_AuthSignature UTC.String role1 "sup"
  = "uwijBctPhUetxMuJ3cIXeH4G8GEBhuKoTraftoDTAec="%string
  /\ Role_input UTC.String role1 "sup"
     = "1:test@example.com:2024-02-29 12:34:56.1234 +0000 UTC:sup"%string.
Proof. vm_compute. split; reflexivity. Qed.

(** ** C7 *)

Lemma distinct_serial_ids_witness :
  listing_ID (AJob job2) = GoStrings.FormatInt 2
  /\ listing_ID (ARole role1) = GoStrings.FormatInt 1
  /\ input UTC.String (AJob job2) "sup" <> input UTC.String (ARole role1) "sup".
Proof.
  assert (H2 : listing_ID (AJob job2) = GoStrings.FormatInt 2)
    by (vm_compute; reflexivity).
  assert (H1 : listing_ID (ARole role1) = GoStrings.FormatInt 1)
    by (vm_compute; reflexivity).
  split; [exact H2|]. split; [exact H1|].
  exact (proj1 (distinct_serial_ids_give_distinct_inputs UTC.String
                  (AJob job2) (ARole role1) "sup" 2 1
                  ltac:(lia) ltac:(lia) ltac:(lia) H2 H1)).
Defined.

(** The ids matter.  Records built by hand under ids that no serial column
    yields can be signed over one string: a job and a role with different
    ids and different timestamps, and two jobs under every secret. *)
Example handmade_listings_with_one_signature :
  listing_ID (AJob colliding_job) <> listing_ID (ARole colliding_role)
  /\ listing_PublishedAt (AJob colliding_job) <> listing_PublishedAt (ARole colliding_role)
  /\ input UTC.String (AJob colliding_job) colliding_secret
     = input UTC.String (ARole colliding_role) colliding_secret
  /\ AuthSignature UTC.String (AJob colliding_job) colliding_secret
     = AuthSignature UTC.String (ARole colliding_role) colliding_secret.
Proof.
  split; [discriminate|]. split; [discriminate|].
  split; vm_compute; reflexivity.
Qed.

Example colliding_input :
  input UTC.String (ARole colliding_role) colliding_secret
  = "7:x:a@b.c:1970-01-01 00:00:00 +0000 UTC:k:2024-02-29 12:34:56 +0000 UTC"%string.
Proof. vm_compute. reflexivity. Qed.

Example twin_jobs_with_one_signature (secret : string) :
  Job.ID twin_job_a <> Job.ID twin_job_b
  /\ Job_AuthSignature UTC.String twin_job_a secret
     = Job_AuthSignature UTC.String twin_job_b secret.
Proof.
  split; [discriminate|].
  unfold Job_AuthSignature.
  replace (Job_input UTC.String twin_job_b) with (Job_input UTC.String twin_job_a);
    [reflexivity|vm_compute; reflexivity].
Qed.

(** ** C8 *)

Lemma update_without_url_and_description_witness :
  outcome (requireTokenAuth UTC.String db1 (Config.AppSecret cfg1) JobRoute
             (request "1" token1 (Some bare_form)))
  = Next
  /\ response (POST_jobs_id UTC.String (fun _ => true) (fun _ => true) cfg1 db1
                 (request "1" token1 (Some bare_form)))
     = Redirect 302
         ("/jobs/" +:+ Param_id (request "1" token1 (Some bare_form)) +:+ "/edit?token="
          +:+ Query (request "1" token1 (Some bare_form)) "token")
  /\ store (POST_jobs_id UTC.String (fun _ => true) (fun _ => true) cfg1 db1
              (request "1" token1 (Some bare_form)))
     = db1.
Proof.
  assert (Hauth : outcome (requireTokenAuth UTC.String db1 (Config.AppSecret cfg1)
                             JobRoute (request "1" token1 (Some bare_form)))
                  = Next)
    by (vm_compute; reflexivity).
  pose proof (update_without_url_and_description_is_rejected
                UTC.String (fun _ => true) (fun _ => true) cfg1 db1
                (request "1" token1 (Some bare_form)) bare_form
                Hauth eq_refl eq_refl eq_refl) as (_ & Hresp & _ & Hstore).
  split; [exact Hauth|]. split; [exact Hresp|exact Hstore].
Defined.

Example update_without_url_and_description_sample :
  response (POST_jobs_id UTC.String (fun _ => true) (fun _ => true) cfg1 db1
              (request "1" token1 (Some bare_form)))
  = Redirect 302 "/jobs/1/edit?token=fig9EatgxEySJJ3eDr-2ZOgRpyHBrqkSkG8yPe0L5so="
  /\ session (POST_jobs_id UTC.String (fun _ => true) (fun _ => true) cfg1 db1
                (request "1" token1 (Some bare_form))) !! "url_err"%string
     = Some [ErrNoUrlOrDescription].
Proof. vm_compute. split; reflexivity. Qed.

(** A payload with a description goes through and is saved. *)
Example update_with_description_sample :
  let h := POST_jobs_id UTC.String (fun _ => true) (fun _ => true) cfg1 db1
             (request "1" token1 (Some (NewJob.mk "New" "Org" "" "Text" ""))) in
  response h = Redirect 302 "/"
  /\ map Job.Position (jobs (store h)) = ["New"%string]
  /\ map (fun j => Job_AuthSignature UTC.String j "sup") (jobs (store h)) = [token1].
Proof. vm_compute. repeat split. Qed.

(** ** C9 *)

(** A role published in 1970 outlives a pass made in 2024. *)
Lemma old_role_survives_sweep :
  fault db_old = None
  /\ In old_role (roles db_old)
  /\ Role.PublishedAt old_role < now1 - 30 * 86400 * 1000000
  /\ snd (sweepPass now1 db_old) = None
  /\ In old_role (roles (fst (sweepPass now1 db_old)))
  /\ ~ In old_job (jobs (fst (sweepPass now1 db_old))).
Proof.
  split; [reflexivity|]. split; [left; reflexivity|]. split; [reflexivity|].
  split; [reflexivity|]. split; [left; reflexivity|].
  vm_compute. intros [H|[]]. discriminate H.
Qed.

Lemma sweepPass_witness :
  fault db_old = None
  /\ jobs (fst (sweepPass now1 db_old)) = [job1]
  /\ (In job1 (jobs (fst (sweepPass now1 db_old)))
      <-> In job1 (jobs db_old)
          /\ ~ Job.PublishedAt job1 < now1 - 30 * 86400 * 1000000)
  /\ roles (fst (sweepPass now1 db_old)) = roles db_old.
Proof.
  pose proof (sweepPass_deletes_expired_jobs_only now1 db_old eq_refl)
    as (_ & Hjobs & Hroles).
  split; [reflexivity|]. split; [reflexivity|].
  split; [exact (Hjobs job1)|exact Hroles].
Defined.

(** ** C10 *)

Lemma Get_swallows_no_rows_witness :
  (Forall (fun j => Job.ID j <> "32"%string) (jobs db1)
   /\ GetJob "32" db1 = (Job.zero, None))
  /\ (List.find (fun j => String.eqb (Job.ID j) "2") (jobs db2) = Some job2
      /\ Forall (fun r => Role.ID r <> "2"%string) (roles db2)
      /\ GetJob "2" db2 = (job2, None)
      /\ GetRole "2" db2 = (Role.zero, None)
      /\ Role.ID (fst (GetRole "2" db2)) <> "2"%string)
  /\ (fault db_down = Some "connection refused"%string
      /\ snd (GetJob "1" db_down) = Some (ErrDriver "connection refused")
      /\ snd (GetRole "1" db_down) = Some (ErrDriver "connection refused")).
Proof.
  assert (Hj : Forall (fun j => Job.ID j <> "32"%string) (jobs db1))
    by (repeat constructor; discriminate).
  assert (Hr : Forall (fun r => Role.ID r <> "2"%string) (roles db2))
    by (repeat constructor; discriminate).
  assert (Hid : "2"%string <> ""%string) by discriminate.
  split; [|split].
  - destruct (proj1 (Get_swallows_no_rows "32" db1) eq_refl) as (HJ & _).
    split; [exact Hj|exact (proj1 (proj2 (HJ Hj)))].
  - destruct (proj1 (Get_swallows_no_rows "2" db2) eq_refl) as (_ & HR & HJ & _).
    destruct (HR Hr) as (_ & Hzero & Hne).
    split; [reflexivity|]. split; [exact Hr|].
    split; [exact (proj1 (HJ job2 eq_refl))|]. split; [exact Hzero|exact (Hne Hid)].
  - destruct (proj2 (Get_swallows_no_rows "1" db_down) "connection refused"%string eq_refl)
      as (HJ & HR).
    repeat split; assumption.
Defined.

(** ** The further code *)

Lemma signed_role_route_witness :
  stored db1 (ARole role1)
  /\ let ctx :=
       mkContext (Role.ID role1)
         ("token=" +:+ NetURL.QueryEscape
                         (Role_AuthSignature UTC.String role1 (Config.AppSecret cfg1)))
         None ∅ in
     SignedRoleRoute UTC.String role1 cfg1
     = Config.URL cfg1 +:+ "/roles/" +:+ Param_id ctx +:+ "/edit?" +:+ RawQuery ctx
     /\ outcome (requireTokenAuth UTC.String db1 (Config.AppSecret cfg1) RoleRoute ctx)
        = Next.
Proof.
  split; [reflexivity|].
  exact (signed_role_route_passes_token_check UTC.String db1 role1 cfg1 None ∅ eq_refl).
Defined.

Lemma accepted_token_witness :
  outcome (requireTokenAuth UTC.String db1 "sup" (authType (AJob job1))
             (request "1" token1 None))
  = Next
  /\ Query (request "1" token1 None) "token" = AuthSignature UTC.String (AJob job1) "sup".
Proof.
  assert (Hout : outcome (requireTokenAuth UTC.String db1 "sup" (authType (AJob job1))
                            (request "1" token1 None))
                 = Next)
    by (vm_compute; reflexivity).
  split; [exact Hout|].
  exact (accepted_token_is_signature UTC.String db1 "sup" (AJob job1)
           (request "1" token1 None) eq_refl eq_refl Hout).
Defined.

Lemma requireTokenAuth_steps_witness :
  String.length (Query (request "1" token1_wrong_head None) "token")
  = String.length (Query (request "1" token1_wrong_tail None) "token")
  /\ cmp_steps (requireTokenAuth UTC.String db1 "sup" JobRoute
                  (request "1" token1_wrong_head None))
     = cmp_steps (requireTokenAuth UTC.String db1 "sup" JobRoute
                    (request "1" token1_wrong_tail None)).
Proof.
  assert (Hlen : String.length (Query (request "1" token1_wrong_head None) "token")
                 = String.length (Query (request "1" token1_wrong_tail None) "token"))
    by (vm_compute; reflexivity).
  assert (Hid : Param_id (request "1" token1_wrong_head None)
                = Param_id (request "1" token1_wrong_tail None))
    by (vm_compute; reflexivity).
  split; [exact Hlen|].
  exact (requireTokenAuth_steps_by_length UTC.String db1 "sup" JobRoute
           (request "1" token1_wrong_head None) (request "1" token1_wrong_tail None)
           Hid Hlen).
Defined.

Lemma requireTokenAuth_unknown_id_witness :
  Forall (fun j => Job.ID j <> Param_id (request "32" token1 None)) (jobs db1)
  /\ Forall (fun r => Role.ID r <> Param_id (request "32" token1 None)) (roles db1)
  /\ requireTokenAuth UTC.String db1 "sup" JobRoute (request "32" token1 None)
     = mkAuth (Abort 404) O
  /\ requireTokenAuth UTC.String db1 "sup" RoleRoute (request "32" token1 None)
     = mkAuth (Abort 404) O.
Proof.
  assert (Hid : Param_id (request "32" token1 None) <> ""%string) by discriminate.
  assert (Hj : Forall (fun j => Job.ID j <> Param_id (request "32" token1 None))
                 (jobs db1))
    by (repeat constructor; discriminate).
  assert (Hr : Forall (fun r => Role.ID r <> Param_id (request "32" token1 None))
                 (roles db1))
    by (repeat constructor; discriminate).
  pose proof (requireTokenAuth_unknown_id UTC.String db1 "sup"
                (request "32" token1 None) eq_refl Hid) as [Hjob Hrole].
  split; [exact Hj|]. split; [exact Hr|]. split; [exact (Hjob Hj)|exact (Hrole Hr)].
Defined.

Lemma DeleteJob_removes_the_id_witness :
  fault db1 = None
  /\ GetJob "1" db1 = (job1, None)
  /\ roles (fst (DeleteJob "1" db1)) = roles db1
  /\ GetJob "1" (fst (DeleteJob "1" db1)) = (Job.zero, None).
Proof.
  pose proof (DeleteJob_removes_the_id "1" db1 eq_refl) as (_ & _ & Hroles & Hget).
  split; [reflexivity|]. split; [reflexivity|]. split; [exact Hroles|exact Hget].
Defined.

Lemma DeleteJob_twice_witness :
  fault db1 = None
  /\ snd (DeleteJob "1" db1) = None
  /\ DeleteJob "1" (fst (DeleteJob "1" db1))
     = (fst (DeleteJob "1" db1), Some (NotOneRow 0)).
Proof.
  split; [reflexivity|]. split; [reflexivity|].
  exact (DeleteJob_twice_fails "1" db1 eq_refl).
Defined.

Lemma sweepPass_latest_witness :
  0 <= now1
  /\ fst (sweepPass now1 (fst (sweepPass 0 db_old))) = fst (sweepPass now1 db_old)
  /\ fst (sweepPass 0 (fst (sweepPass now1 db_old))) = fst (sweepPass now1 db_old).
Proof.
  assert (Hle : 0 <= now1) by (unfold now1; lia).
  split; [exact Hle|].
  exact (sweepPass_latest_decides 0 now1 db_old Hle).
Defined.

Lemma UpdateJob_then_GetJob_witness :
  NewJob_Validate (fun _ => true) (fun _ => true) new_text_form true = ∅
  /\ response (UpdateJob (fun _ => true) (fun _ => true) db1
                 (request "1" token1 (Some new_text_form)))
     = Redirect 302 "/"
  /\ GetJob (Param_id (request "1" token1 (Some new_text_form)))
       (store (UpdateJob (fun _ => true) (fun _ => true) db1
                 (request "1" token1 (Some new_text_form))))
     = (Job_Update job1 new_text_form, None).
Proof.
  assert (Hval : NewJob_Validate (fun _ => true) (fun _ => true) new_text_form true = ∅)
    by reflexivity.
  pose proof (UpdateJob_then_GetJob (fun _ => true) (fun _ => true) db1
                (request "1" token1 (Some new_text_form)) new_text_form job1
                eq_refl eq_refl Hval eq_refl) as (Hresp & _ & Hget).
  split; [exact Hval|]. split; [exact Hresp|exact Hget].
Defined.

Lemma UpdateJob_touches_one_id_witness :
  nth_error (jobs db2) 1 = Some job2
  /\ Job.ID job2 <> Param_id (request "1" token1 (Some new_text_form))
  /\ length (jobs (store (UpdateJob (fun _ => true) (fun _ => true) db2
                            (request "1" token1 (Some new_text_form)))))
     = length (jobs db2)
  /\ nth_error (jobs (store (UpdateJob (fun _ => true) (fun _ => true) db2
                               (request "1" token1 (Some new_text_form))))) 1
     = Some job2.
Proof.
  assert (Hne : Job.ID job2 <> Param_id (request "1" token1 (Some new_text_form)))
    by discriminate.
  pose proof (UpdateJob_touches_one_id (fun _ => true) (fun _ => true) db2
                (request "1" token1 (Some new_text_form)) job1 eq_refl)
    as (_ & Hlen & Hrows).
  split; [reflexivity|]. split; [exact Hne|]. split; [exact Hlen|].
  exact (Hrows 1%nat job2 eq_refl Hne).
Defined.

Lemma POST_jobs_id_writes_witness :
  store (POST_jobs_id UTC.String (fun _ => true) (fun _ => true) cfg1 db1
           (request "1" token1 (Some new_text_form)))
  <> db1
  /\ exists job,
       GetJob (Param_id (request "1" token1 (Some new_text_form))) db1 = (job, None)
       /\ Job.ID job = Param_id (request "1" token1 (Some new_text_form))
       /\ Query (request "1" token1 (Some new_text_form)) "token"
          = Job_AuthSignature UTC.String job (Config.AppSecret cfg1).
Proof.
  assert (Hne : store (POST_jobs_id UTC.String (fun _ => true) (fun _ => true) cfg1 db1
                         (request "1" token1 (Some new_text_form)))
                <> db1)
    by (vm_compute; discriminate).
  split; [exact Hne|].
  exact (POST_jobs_id_writes_only_with_the_signature UTC.String (fun _ => true)
           (fun _ => true) cfg1 db1 (request "1" token1 (Some new_text_form)) Hne).
Defined.

Lemma CreateJob_mails_a_working_link_witness :
  NewJob_Validate (fun _ => true) (fun _ => true) full_form false = ∅
  /\ Forall (fun row => Job.ID row <> GoStrings.FormatInt 2) (jobs db1)
  /\ let job :=
       Job.mk (GoStrings.FormatInt 2)
              (NewJob.Position full_form) (NewJob.Organization full_form)
              (NullString.mk (NewJob.Url full_form) (nonempty (NewJob.Url full_form)))
              (NullString.mk (NewJob.Description full_form)
                             (nonempty (NewJob.Description full_form)))
              (NewJob.Email full_form) now1 in
     let r :=
       CreateJob UTC.String (fun _ => true) (fun _ => true)
                 "Your job " " is up: " " edit it at " "."
                 mail_only cfg1 2 now1 db1 (mkContext "" "" (Some full_form) ∅) in
     created_response r = Redirect 302 "/"
     /\ created_store r = mkDB (jobs db1 ++ [job]) (roles db1) None
     /\ emails r
        = [mkMail (NewJob.Email full_form)
                  ("Job " +:+ NewJob.Position full_form +:+ " Created!")
                  (createdMessage "Your job " " is up: " " edit it at " "."
                     (NewJob.Position full_form) (SignedJobRoute UTC.String job cfg1))]
     /\ GetJob (Job.ID job) (created_store r) = (job, None)
     /\ outcome (requireTokenAuth UTC.String (created_store r) (Config.AppSecret cfg1)
                   JobRoute
                   (mkContext (Job.ID job)
                      ("token=" +:+ NetURL.QueryEscape
                                      (Job_AuthSignature UTC.String job
                                         (Config.AppSecret cfg1)))
                      None ∅))
        = Next.
Proof.
  assert (Hval : NewJob_Validate (fun _ => true) (fun _ => true) full_form false = ∅)
    by reflexivity.
  assert (Hfresh : Forall (fun row => Job.ID row <> GoStrings.FormatInt 2) (jobs db1))
    by (repeat constructor; vm_compute; discriminate).
  split; [exact Hval|]. split; [exact Hfresh|].
  exact (CreateJob_mails_a_working_link UTC.String (fun _ => true) (fun _ => true)
           "Your job " " is up: " " edit it at " "." mail_only cfg1 2 now1 db1
           (mkContext "" "" (Some full_form) ∅) full_form (fun _ => None)
           eq_refl eq_refl Hval Hfresh eq_refl).
Defined.

Lemma CreateJob_without_success_witness :
  created_response
    (CreateJob UTC.String (fun _ => true) (fun _ => true)
       "Your job " " is up: " " edit it at " "." mail_only cfg1 2 now1 db1
       (mkContext "" "" (Some bare_form) ∅))
  <> Redirect 302 "/"
  /\ created_store
       (CreateJob UTC.String (fun _ => true) (fun _ => true)
          "Your job " " is up: " " edit it at " "." mail_only cfg1 2 now1 db1
          (mkContext "" "" (Some bare_form) ∅))
     = db1
  /\ emails
       (CreateJob UTC.String (fun _ => true) (fun _ => true)
          "Your job " " is up: " " edit it at " "." mail_only cfg1 2 now1 db1
          (mkContext "" "" (Some bare_form) ∅))
     = [].
Proof.
  assert (Hne : created_response
                  (CreateJob UTC.String (fun _ => true) (fun _ => true)
                     "Your job " " is up: " " edit it at " "." mail_only cfg1 2 now1 db1
                     (mkContext "" "" (Some bare_form) ∅))
                <> Redirect 302 "/")
    by (vm_compute; discriminate).
  pose proof (CreateJob_without_success_has_no_effect UTC.String (fun _ => true)
                (fun _ => true) "Your job " " is up: " " edit it at " "." mail_only
                cfg1 2 now1 db1 (mkContext "" "" (Some bare_form) ∅) Hne)
    as (Hstore & Hmail & _).
  split; [exact Hne|]. split; [exact Hstore|exact Hmail].
Defined.

Lemma created_jobs_witness :
  snd (snd (NewJob_SaveToDB full_form 2 now1 db1)) = None
  /\ snd (snd (NewJob_SaveToDB new_text_form 3 0 db2)) = None
  /\ Job_input UTC.String (fst (snd (NewJob_SaveToDB full_form 2 now1 db1)))
     <> Job_input UTC.String (fst (snd (NewJob_SaveToDB new_text_form 3 0 db2))).
Proof.
  assert (H1 : snd (snd (NewJob_SaveToDB full_form 2 now1 db1)) = None)
    by reflexivity.
  assert (H2 : snd (snd (NewJob_SaveToDB new_text_form 3 0 db2)) = None)
    by reflexivity.
  split; [exact H1|]. split; [exact H2|].
  exact (created_jobs_sign_different_strings UTC.String full_form new_text_form 2 3
           now1 0 db1 db2 ltac:(lia) ltac:(lia) ltac:(lia) H1 H2).
Defined.

Lemma write_paths_witness :
  Forall Job_wf (jobs db2)
  /\ Forall Job_wf
       (jobs (store (UpdateJob (fun _ => true) (fun _ => true) db2
                       (request "1" token1 (Some new_text_form)))))
  /\ Forall Job_wf (jobs (fst (DeleteJob "1" db2))).
Proof.
  assert (Hwf : Forall Job_wf (jobs db2)) by (repeat constructor).
  pose proof (write_paths_keep_jobs_well_formed UTC.String (fun _ => true)
                (fun _ => true) "Your job " " is up: " " edit it at " "." mail_only
                cfg1 3 now1 "1" db2 (request "1" token1 (Some new_text_form)) Hwf)
    as (Hupd & _ & Hdel & _).
  split; [exact Hwf|]. split; [exact Hupd|exact Hdel].
Defined.

Lemma rejected_update_witness :
  NewJob_Validate (fun _ => true) (fun _ => true) bare_form true !! "url"%string
  = Some ErrNoUrlOrDescription
  /\ exists vars : gmap string Value,
       page (EditJob db1 after_rejection) = PageHTML 200 "edit" vars
       /\ vars !! ("url" +:+ "_err")
          = Some (VFlashes
                    (default []
                       (Flashes (request "1" token1 (Some bare_form))
                          !! ("url" +:+ "_err"))
                     ++ [ErrNoUrlOrDescription]))
       /\ page_session (EditJob db1 after_rejection) !! ("url" +:+ "_err") = None.
Proof.
  assert (Hk : NewJob_Validate (fun _ => true) (fun _ => true) bare_form true
                 !! "url"%string
               = Some ErrNoUrlOrDescription)
    by (vm_compute; reflexivity).
  split; [exact Hk|].
  exact (rejected_update_messages_are_shown_once (fun _ => true) (fun _ => true)
           db1 db1 (request "1" token1 (Some bare_form)) after_rejection bare_form
           "url" ErrNoUrlOrDescription eq_refl Hk eq_refl eq_refl).
Defined.

Lemma GET_jobs_id_edit_witness :
  Query (request "1" token1 None) "token"
  = Job_AuthSignature UTC.String job1 (Config.AppSecret cfg1)
  /\ exists vars : gmap string Value,
       page (GET_jobs_id_edit UTC.String cfg1 db1 (request "1" token1 None))
       = PageHTML 200 "edit" vars
       /\ vars !! "job"%string = Some (VJob job1)
       /\ vars !! "token"%string
          = Some (VString (Job_AuthSignature UTC.String job1 (Config.AppSecret cfg1))).
Proof.
  assert (Htok : Query (request "1" token1 None) "token"
                 = Job_AuthSignature UTC.String job1 (Config.AppSecret cfg1))
    by (vm_compute; reflexivity).
  split; [exact Htok|].
  exact (proj1 (GET_jobs_id_edit_shows_the_stored_job UTC.String cfg1 db1
                  (request "1" token1 None) job1 eq_refl eq_refl) Htok).
Defined.

Lemma ViewJob_raw_description_witness :
  GetJob (Param_id (request "2" "" None)) db2 = (job2, None)
  /\ ViewJob (fun _ => None) db2 (request "2" "" None)
     = PageHTML 200 "view"
         (<["description" := VHTML (NullString.String (Job.Description job2))]>
            (<["job" := VJob job2]> ∅)).
Proof.
  split; [reflexivity|].
  exact (ViewJob_serves_raw_description_on_failure (fun _ => None) db2
           (request "2" "" None) job2 eq_refl eq_refl eq_refl).
Defined.

Lemma Role_Update_Save_witness :
  stored db1 (ARole role1)
  /\ let saved := Role_Save (Role_Update role1 role_form) db1 in
     snd saved = None
     /\ GetRole (Role.ID role1) (fst saved) = (Role_Update role1 role_form, None)
     /\ jobs (fst saved) = jobs db1
     /\ AuthSignature UTC.String (ARole (Role_Update role1 role_form)) "sup"
        = AuthSignature UTC.String (ARole role1) "sup".
Proof.
  split; [reflexivity|].
  exact (Role_Update_Save_then_GetRole UTC.String db1 role1 role_form "sup" eq_refl).
Defined.
